(** * Gravity simulation: vectors, bodies, the engine and the background stepper

    A shallow embedding of
    - [src/api/domain/vector2d.py]        (module [Vector2D]),
    - [src/api/domain/celestial_body.py]  (module [CelestialBody]),
    - [src/domain/gravity_simulation.py]  (module [GravitySimulation]),
    - [src/api/tasks.py]                  (module [Tasks]).

    Python objects that are mutated in place ([CelestialBody] instances, the
    engine) live in an explicit store; [Vector2D] values are never mutated by
    the source ([+=] on a vector rebinds the attribute to a fresh object), so
    they are plain values.  Exceptions are values of [exn]; a computation that
    may raise returns [Py A]. *)

From Stdlib Require Import ZArith String Bool Lia Reals Lra.
From Stdlib Require PrimFloat SpecFloat FloatOps FloatAxioms.
From stdpp Require Import base option list gmap.

Open Scope Z_scope.

(** ** Exceptions and the exception monad *)

Inductive exn : Type :=
| ValueError (msg : string)
| ZeroDivisionError
| OverflowError
| TypeError
| CancelledError.

Definition Py (A : Type) : Type := (exn + A)%type.

Definition raise {A : Type} (e : exn) : Py A := inl e.
Definition ret {A : Type} (a : A) : Py A := inr a.
Definition bind {A B : Type} (m : Py A) (k : A -> Py B) : Py B :=
  match m with
  | inl e => inl e
  | inr a => k a
  end.

Notation "'let*' x ':=' m 'in' k" := (bind m (fun x => k))
  (at level 10, x name, m at level 100, k at level 200).

(** ** The numbers of the program

    The source computes on Python numbers.  Their arithmetic is the
    language's, not the repository's, so it is a parameter: a carrier with the
    operations the source uses.  [+], [-] and [*] never raise.  [x ** 2],
    [x ** 0.5] and [math.sqrt] may (the float power raises [OverflowError] on
    overflow; a negative radicand makes [math.sqrt] raise [ValueError] and
    makes [** 0.5] leave the floats, which ends the enclosing statement of
    [calculate_net_forces] in a [TypeError]), so they return [Py]. *)

Class PyNum (F : Type) : Type := {
  num0 : F;                     (* the literal 0 *)
  num1 : F;                     (* the literal 1.0 *)
  nadd : F -> F -> F;           (* a + b *)
  nsub : F -> F -> F;           (* a - b *)
  nmul : F -> F -> F;           (* a * b *)
  nquot : F -> F -> F;          (* a / b, for a divisor that is not zero *)
  neqb : F -> F -> bool;        (* a == b *)
  nleb : F -> F -> bool;        (* a <= b *)
  nsquare : F -> Py F;          (* a ** 2 *)
  nroot : F -> Py F;            (* a ** 0.5 *)
  nsqrt : F -> Py F             (* math.sqrt(a) *)
}.

(** [a / b]: Python checks the divisor before dividing. *)
Definition ndiv {F : Type} `{PyNum F} (a b : F) : Py F :=
  if neqb b num0 then raise ZeroDivisionError else ret (nquot a b).

(** ** vector2d.py *)

Module Vector2D.

Record t (F : Type) : Type := mk { x : F; y : F }.
Arguments mk {F} _ _.
Arguments x {F} _.
Arguments y {F} _.

Section Ops.
Context {F : Type} `{PyNum F}.

(** [__add__] *)
Definition add (self other : t F) : t F :=
  mk (nadd (x self) (x other)) (nadd (y self) (y other)).

(** [__sub__] *)
Definition sub (self other : t F) : t F :=
  mk (nsub (x self) (x other)) (nsub (y self) (y other)).

(** [__mul__] and [__rmul__] have the same body. *)
Definition mul (self : t F) (scalar : F) : t F :=
  mk (nmul (x self) scalar) (nmul (y self) scalar).

Definition rmul (scalar : F) (self : t F) : t F :=
  mk (nmul (x self) scalar) (nmul (y self) scalar).



Definition copy (self : t F) : t F := mk (x self) (y self).

Definition zero : t F := mk num0 num0.

End Ops.
End Vector2D.

(** ** celestial_body.py *)

Module CelestialBody.

Record t (F : Type) : Type := mk {
  id : string;
  mass : F;
  position : Vector2D.t F;
  velocity : Vector2D.t F;
  radius : F;
  color : Z * Z * Z;
  trail : list (Vector2D.t F);
  max_trail_length : Z
}.
Arguments mk {F} _ _ _ _ _ _ _ _.
Arguments id {F} _.
Arguments mass {F} _.
Arguments position {F} _.
Arguments velocity {F} _.
Arguments radius {F} _.
Arguments color {F} _.
Arguments trail {F} _.
Arguments max_trail_length {F} _.

Section Ops.
Context {F : Type} `{PyNum F}.

Definition set_position (p : Vector2D.t F) (b : t F) : t F :=
  mk (id b) (mass b) p (velocity b) (radius b) (color b) (trail b)
     (max_trail_length b).

Definition set_velocity (v : Vector2D.t F) (b : t F) : t F :=
  mk (id b) (mass b) (position b) v (radius b) (color b) (trail b)
     (max_trail_length b).

Definition set_trail (tr : list (Vector2D.t F)) (b : t F) : t F :=
  mk (id b) (mass b) (position b) (velocity b) (radius b) (color b) tr
     (max_trail_length b).

Definition set_mass (m : F) (b : t F) : t F :=
  mk (id b) m (position b) (velocity b) (radius b) (color b) (trail b)
     (max_trail_length b).

Definition set_max_trail_length (n : Z) (b : t F) : t F :=
  mk (id b) (mass b) (position b) (velocity b) (radius b) (color b) (trail b) n.

(** [__init__] *)
Definition init (mass0 : F) (position0 velocity0 : Vector2D.t F) (radius0 : F)
    (color0 : Z * Z * Z) (id0 : string) : Py (t F) :=
  if nleb mass0 num0 then raise (ValueError "Mass must be positive.")
  else if nleb radius0 num0 then raise (ValueError "Radius must be positive.")
  else ret (mk id0 mass0 position0 velocity0 radius0 color0 [] 50).

(** [list.pop(0)] on a list that is not empty. *)
Definition pop0 {A : Type} (l : list A) : list A := tail l.

Definition update_position (self : t F) (time_step : F) : t F :=
  let self1 :=
    set_position
      (Vector2D.add (position self) (Vector2D.mul (velocity self) time_step))
      self in
  let self2 := set_trail (trail self1 ++ [Vector2D.copy (position self1)]) self1 in
  if Z.of_nat (length (trail self2)) >? max_trail_length self2
  then set_trail (pop0 (trail self2)) self2
  else self2.

Definition apply_force (self : t F) (force : Vector2D.t F) (time_step : F)
    : Py (t F) :=
  if neqb (mass self) num0 then ret self
  else
    let* inv := ndiv num1 (mass self) in
    let acceleration := Vector2D.mul force inv in
    ret (set_velocity
           (Vector2D.add (velocity self) (Vector2D.mul acceleration time_step))
           self).

End Ops.
End CelestialBody.

(** ** gravity_simulation.py *)

Module GravitySimulation.

(** A [CelestialBody] object is known by its address: the engine's list holds
    references, and the force dictionary is keyed by object identity (the
    class defines neither [__eq__] nor [__hash__]). *)
Definition addr : Type := nat.

Record t (F : Type) : Type := mk {
  gravitational_constant : F;
  bodies : list addr;
  epsilon : F;
  paused : bool;
  time_step_display : F;
  _net_forces : gmap addr (Vector2D.t F)
}.
Arguments mk {F} _ _ _ _ _ _.
Arguments gravitational_constant {F} _.
Arguments bodies {F} _.
Arguments epsilon {F} _.
Arguments paused {F} _.
Arguments time_step_display {F} _.
Arguments _net_forces {F} _.

(** The engine object together with the objects its list refers to. *)
Record world (F : Type) : Type := World {
  self : t F;
  heap : addr -> CelestialBody.t F
}.
Arguments World {F} _ _.
Arguments self {F} _.
Arguments heap {F} _.

Section Ops.
Context {F : Type} `{PyNum F}.

(** [__init__], with [epsilon] given ([1e-9] when the caller leaves it out). *)
Definition init (gravitational_constant0 epsilon0 : F) : t F :=
  mk gravitational_constant0 [] epsilon0 false num0 ∅.

Definition set__net_forces (fs : gmap addr (Vector2D.t F)) (s : t F) : t F :=
  mk (gravitational_constant s) (bodies s) (epsilon s) (paused s)
     (time_step_display s) fs.

Definition set_bodies (l : list addr) (s : t F) : t F :=
  mk (gravitational_constant s) l (epsilon s) (paused s)
     (time_step_display s) (_net_forces s).

Definition set_paused (p : bool) (s : t F) : t F :=
  mk (gravitational_constant s) (bodies s) (epsilon s) p
     (time_step_display s) (_net_forces s).

(** Writing an attribute of the object at [a]. *)
Definition set_body (a : addr) (b : CelestialBody.t F) (w : world F) : world F :=
  World (self w) (fun a' => if decide (a' = a) then b else heap w a').

(** Methods of the engine run in a state and exception monad: what was
    written before an exception is raised stays written. *)
Definition M (A : Type) : Type := world F -> Py A * world F.

Definition mret {A : Type} (a : A) : M A := fun w => (inr a, w).

Definition mbind {A B : Type} (m : M A) (k : A -> M B) : M B :=
  fun w =>
    match m w with
    | (inl e, w') => (inl e, w')
    | (inr a, w') => k a w'
    end.

Definition lift {A : Type} (c : Py A) : M A := fun w => (c, w).

Definition read {A : Type} (f : world F -> A) : M A := fun w => (inr (f w), w).

Definition write (f : world F -> world F) : M unit := fun w => (inr tt, f w).

Fixpoint for_each {A : Type} (l : list A) (body : A -> M unit) : M unit :=
  match l with
  | [] => mret tt
  | a :: rest => mbind (body a) (fun _ => for_each rest body)
  end.

(** [add_body] *)
Definition add_body (body : addr) : M unit :=
  write (fun w => World (set_bodies (bodies (self w) ++ [body]) (self w)) (heap w)).

(** [enumerate(l, start)]; the source leaves [start] at 0. *)
Fixpoint enumerate_from {A : Type} (start : nat) (l : list A) : list (nat * A) :=
  match l with
  | [] => []
  | a :: rest => (start, a) :: enumerate_from (S start) rest
  end.

Definition enumerate {A : Type} (l : list A) : list (nat * A) :=
  enumerate_from 0 l.

(** The body of the inner loop of [calculate_net_forces] for one pair. *)
Definition force_vec (G eps : F) (body_a body_b : CelestialBody.t F)
    : Py (Vector2D.t F) :=
  let delta_position :=
    Vector2D.sub (CelestialBody.position body_b) (CelestialBody.position body_a) in
  let* dx2 := nsquare (Vector2D.x delta_position) in
  let* dy2 := nsquare (Vector2D.y delta_position) in
  let distance_squared := nadd dx2 dy2 in
  let* distance_r := nroot (nadd distance_squared eps) in
  let* fd :=
    (if neqb distance_r num0 then ret (num0, Vector2D.mk num0 num0)
     else
       let* r2 := nsquare distance_r in
       let* force_magnitude :=
         ndiv (nmul (nmul G (CelestialBody.mass body_a)) (CelestialBody.mass body_b))
              r2 in
       let* ux := ndiv (Vector2D.x delta_position) distance_r in
       let* uy := ndiv (Vector2D.y delta_position) distance_r in
       ret (force_magnitude, Vector2D.mk ux uy)) in
  ret (Vector2D.mul (snd fd) (fst fd)).

(** The inner loop [for j, body_b in enumerate(self.bodies)]. *)
Fixpoint inner_loop (w : world F) (i : nat) (body_a : addr)
    (js : list (nat * addr)) (net_force_on_a : Vector2D.t F)
    : Py (Vector2D.t F) :=
  match js with
  | [] => ret net_force_on_a
  | (j, body_b) :: rest =>
      if decide (i = j) then inner_loop w i body_a rest net_force_on_a
      else
        let* fv :=
          force_vec (gravitational_constant (self w)) (epsilon (self w))
                    (heap w body_a) (heap w body_b) in
        inner_loop w i body_a rest (Vector2D.add net_force_on_a fv)
  end.

(** The outer loop [for i, body_a in enumerate(self.bodies)]. *)
Fixpoint outer_loop (w : world F) (ias : list (nat * addr))
    (current_forces : gmap addr (Vector2D.t F))
    : Py (gmap addr (Vector2D.t F)) :=
  match ias with
  | [] => ret current_forces
  | (i, body_a) :: rest =>
      let* net_force_on_a :=
        inner_loop w i body_a (enumerate (bodies (self w))) Vector2D.zero in
      outer_loop w rest (<[body_a := net_force_on_a]> current_forces)
  end.

Definition calculate_net_forces : M (gmap addr (Vector2D.t F)) :=
  mbind (fun w => (outer_loop w (enumerate (bodies (self w))) ∅, w))
    (fun current_forces =>
       mbind (write (fun w => World (set__net_forces current_forces (self w)) (heap w)))
         (fun _ => mret current_forces)).

(** [body.apply_force(force, time_step)] on the object at [body]. *)
Definition call_apply_force (body : addr) (force : Vector2D.t F) (time_step : F)
    : M unit :=
  fun w =>
    match CelestialBody.apply_force (heap w body) force time_step with
    | inl e => (inl e, w)
    | inr b' => (inr tt, set_body body b' w)
    end.

(** [body.update_position(time_step)] on the object at [body]. *)
Definition call_update_position (body : addr) (time_step : F) : M unit :=
  write (fun w => set_body body (CelestialBody.update_position (heap w body) time_step) w).

Definition update (time_step : F) : M unit :=
  fun w =>
    if paused (self w) then (inr tt, w)
    else
      mbind calculate_net_forces
        (fun forces_this_step =>
           mbind (read (fun w => bodies (self w)))
             (fun bs =>
                mbind
                  (for_each bs
                     (fun body =>
                        let net_force_on_body :=
                          default Vector2D.zero (forces_this_step !! body) in
                        call_apply_force body net_force_on_body time_step))
                  (fun _ =>
                     mbind (read (fun w => bodies (self w)))
                       (fun bs' =>
                          for_each bs'
                            (fun body => call_update_position body time_step)))))
        w.

End Ops.
End GravitySimulation.

(** ** tasks.py: the background stepper *)

Module Tasks.

Section Loop.
Context {F : Type} `{PyNum F}.

Inductive log_entry : Type :=
| Info (msg : string)
| Error (msg : string) (e : exn).

(** What the coroutine reads and writes: the engine it fetched from the
    manager when it started, the module's stop flag, and the logger. *)
Record state : Type := State {
  simulation : GravitySimulation.world F;
  _simulation_task_should_stop : bool;
  logger : list log_entry
}.

Definition log (entry : log_entry) (s : state) : state :=
  State (simulation s) (_simulation_task_should_stop s) (logger s ++ [entry]).

Definition set_stop (b : bool) (s : state) : state :=
  State (simulation s) b (logger s).

(** An [await asyncio.sleep(...)] hands control to the event loop.  Other
    tasks run meanwhile ([others]: requests that add bodies, change
    parameters, pause, or set the stop flag); then the sleep either returns
    or raises at the [await]. *)
Inductive sleep_event : Type :=
| Wake (others : state -> state)
| Throw (e : exn) (others : state -> state).

(** How a run of the coroutine over a finite trace of events ends. *)
Inductive outcome : Type :=
| Returned (s : state)          (* the coroutine ran to its last line *)
| Raised (e : exn) (s : state)  (* an exception left the coroutine: the task is over *)
| Suspended (s : state).        (* waiting at an [await]: the trace is used up *)

(** The first statement of the loop body. *)
Definition tick (s : state) : Py unit * state :=
  if negb (GravitySimulation.paused (GravitySimulation.self (simulation s)))
  then
    let r :=
      GravitySimulation.update
        (GravitySimulation.time_step_display (GravitySimulation.self (simulation s)))
        (simulation s) in
    (fst r, State (snd r) (_simulation_task_should_stop s) (logger s))
  else (inr tt, s).

(** [while not _simulation_task_should_stop: ...] and the line after it. *)
Fixpoint while_loop (trace : list sleep_event) (s : state) : outcome :=
  if _simulation_task_should_stop s
  then Returned (log (Info "Background simulation update loop has finished.") s)
  else
    match tick s with
    | (inl e, s1) => Raised e s1
    | (inr _, s1) =>
        match trace with
        | [] => Suspended s1
        | Wake others :: trace1 => while_loop trace1 (others s1)
        | Throw CancelledError others :: _ =>
            Returned
              (log (Info "Background simulation update loop has finished.")
                 (set_stop true
                    (log (Info "Background simulation update loop cancelled.")
                       (others s1))))
        | Throw e others :: trace1 =>
            let s2 := log (Error "Error in simulation update loop" e) (others s1) in
            match trace1 with
            | [] => Suspended s2
            | Wake others2 :: trace2 => while_loop trace2 (others2 s2)
            | Throw e2 others2 :: _ => Raised e2 (others2 s2)
            end
        end
    end.

Definition _run_simulation_update_loop (trace : list sleep_event)
    (s : state) : outcome :=
  while_loop trace (log (Info "Background simulation update loop starting...") s).

End Loop.
End Tasks.

(** ** tasks.py: starting and stopping the stepper *)

Module TaskControl.

Section Control.
Context {F : Type} `{PyNum F}.

(** The globals of the module and the event loop behind them.  Of the task
    object in [_simulation_task_handle] the module only asks [done()]: the
    handle is [None], or a task together with the answer [done()] gives
    now.  [created] counts the tasks [create_task] has handed to the event
    loop. *)
Record state : Type := State {
  globals : Tasks.state (F := F);
  _simulation_task_handle : option bool;
  created : nat
}.

Definition start_simulation_loop_task (s : state) : state :=
  match _simulation_task_handle s with
  | Some false =>
      State (Tasks.log (Tasks.Info "Simulation update task already running.") (globals s))
            (_simulation_task_handle s) (created s)
  | _ =>
      State (Tasks.log (Tasks.Info "Background simulation update task created.")
               (Tasks.set_stop false (globals s)))
            (Some false) (S (created s))
  end.

Definition stop_simulation_loop_task (s : state) : state :=
  match _simulation_task_handle s with
  | Some false =>
      State (Tasks.log
               (Tasks.Info "Simulation update task stop signal sent. Waiting for completion...")
               (Tasks.set_stop true (globals s)))
            (_simulation_task_handle s) (created s)
  | _ =>
      State (Tasks.log
               (Tasks.Info "Simulation update task is not running or already stopped.")
               (globals s))
            (_simulation_task_handle s) (created s)
  end.

End Control.
End TaskControl.

(** ** main_api.py: the handlers that act on the engine

    A handler fetches the engine from the manager and works on it; the
    request has passed the framework's validation and is a typed value.  An
    [HTTPException] a handler raises is the error of its result. *)

Module Api.

Inductive http_error : Type :=
| HTTPException (status_code : Z) (detail : string)
| Uncaught (e : exn).

Section Handlers.
Context {F : Type} `{PyNum F}.

Record SimulationStatusResponse : Type := StatusResponse {
  is_paused : bool;
  gravitational_constant : F;
  time_step : F;
  num_bodies : nat
}.

Record CelestialBodyResponse : Type := BodyResponse {
  id : string;
  mass : F;
  position : Vector2D.t F;
  velocity : Vector2D.t F;
  radius : F;
  color : Z * Z * Z;
  trail : list (Vector2D.t F)
}.

Record AddBodyRequest : Type := BodyRequest {
  req_id : string;
  req_mass : F;
  req_position : Vector2D.t F;
  req_velocity : Vector2D.t F;
  req_radius : F;
  req_color : Z * Z * Z
}.

(** The [SimulationStatusResponse(...)] every control handler returns. *)
Definition status_of (w : GravitySimulation.world F) : SimulationStatusResponse :=
  StatusResponse
    (GravitySimulation.paused (GravitySimulation.self w))
    (GravitySimulation.gravitational_constant (GravitySimulation.self w))
    (GravitySimulation.time_step_display (GravitySimulation.self w))
    (length (GravitySimulation.bodies (GravitySimulation.self w))).

Definition set_engine (f : GravitySimulation.t F -> GravitySimulation.t F)
    (w : GravitySimulation.world F) : GravitySimulation.world F :=
  GravitySimulation.World (f (GravitySimulation.self w)) (GravitySimulation.heap w).

Definition set_gravitational_constant (g : F) (s : GravitySimulation.t F)
    : GravitySimulation.t F :=
  GravitySimulation.mk g (GravitySimulation.bodies s) (GravitySimulation.epsilon s)
    (GravitySimulation.paused s) (GravitySimulation.time_step_display s)
    (GravitySimulation._net_forces s).

Definition set_time_step_display (ts : F) (s : GravitySimulation.t F)
    : GravitySimulation.t F :=
  GravitySimulation.mk (GravitySimulation.gravitational_constant s)
    (GravitySimulation.bodies s) (GravitySimulation.epsilon s)
    (GravitySimulation.paused s) ts (GravitySimulation._net_forces s).

Definition pause_simulation (w : GravitySimulation.world F)
    : SimulationStatusResponse * GravitySimulation.world F :=
  let w1 := set_engine (GravitySimulation.set_paused true) w in
  (status_of w1, w1).

Definition resume_simulation (w : GravitySimulation.world F)
    : SimulationStatusResponse * GravitySimulation.world F :=
  let w1 := set_engine (GravitySimulation.set_paused false) w in
  (status_of w1, w1).

Definition get_simulation_status (w : GravitySimulation.world F)
    : SimulationStatusResponse * GravitySimulation.world F :=
  (status_of w, w).

(** [step_simulation]: the flag is put back by the statement after the
    [update] call, which an exception skips. *)
Definition step_simulation (w : GravitySimulation.world F)
    : Py SimulationStatusResponse * GravitySimulation.world F :=
  let original_paused_state := GravitySimulation.paused (GravitySimulation.self w) in
  let w1 := set_engine (GravitySimulation.set_paused false) w in
  match GravitySimulation.update
          (GravitySimulation.time_step_display (GravitySimulation.self w1)) w1 with
  | (inl e, w2) => (inl e, w2)
  | (inr _, w2) =>
      let w3 := set_engine (GravitySimulation.set_paused original_paused_state) w2 in
      (inr (status_of w3), w3)
  end.

(** [update_simulation_parameters]: a parameter the request leaves out is
    [None]. *)
Definition update_simulation_parameters (g ts : option F)
    (w : GravitySimulation.world F)
    : SimulationStatusResponse * GravitySimulation.world F :=
  let w1 :=
    match g with
    | Some g' => set_engine (set_gravitational_constant g') w
    | None => w
    end in
  let w2 :=
    match ts with
    | Some ts' => set_engine (set_time_step_display ts') w1
    | None => w1
    end in
  (status_of w2, w2).

(** The address of an object that has just been made: one the engine does
    not list. *)
Definition fresh (l : list GravitySimulation.addr) : GravitySimulation.addr :=
  S (foldr Nat.max 0%nat l).

(** The loop of [add_simulation_body] that looks for the id. *)
Fixpoint id_taken (w : GravitySimulation.world F) (l : list GravitySimulation.addr)
    (i : string) : bool :=
  match l with
  | [] => false
  | existing_body :: rest =>
      if String.eqb (CelestialBody.id (GravitySimulation.heap w existing_body)) i
      then true
      else id_taken w rest i
  end.

Definition body_response (b : CelestialBody.t F) : CelestialBodyResponse :=
  BodyResponse (CelestialBody.id b) (CelestialBody.mass b) (CelestialBody.position b)
    (CelestialBody.velocity b) (CelestialBody.radius b) (CelestialBody.color b)
    (CelestialBody.trail b).

Definition add_simulation_body (body_request : AddBodyRequest)
    (w : GravitySimulation.world F)
    : (http_error + CelestialBodyResponse) * GravitySimulation.world F :=
  if id_taken w (GravitySimulation.bodies (GravitySimulation.self w)) (req_id body_request)
  then
    (inl (HTTPException 409
            ("Body with ID '" ++ req_id body_request ++ "' already exists.")), w)
  else
    match CelestialBody.init (req_mass body_request)
            (Vector2D.mk (Vector2D.x (req_position body_request))
                         (Vector2D.y (req_position body_request)))
            (Vector2D.mk (Vector2D.x (req_velocity body_request))
                         (Vector2D.y (req_velocity body_request)))
            (req_radius body_request) (req_color body_request)
            (req_id body_request) with
    | inl (ValueError msg) =>
        (inl (HTTPException 422 ("Invalid body parameter: " ++ msg)), w)
    | inl e => (inl (Uncaught e), w)
    | inr new_body =>
        let a := fresh (GravitySimulation.bodies (GravitySimulation.self w)) in
        let w1 := GravitySimulation.set_body a new_body w in
        let w2 := snd (GravitySimulation.add_body a w1) in
        (inr (body_response new_body), w2)
    end.

End Handlers.
End Api.

(** ** application/input_handler.py: the keyboard

    [handle_input] reads a key press and changes the service's step and the
    engine's constant and pause flag.  It needs three more literals and [>]
    (for [max]) of the numbers.  A mouse click builds a body with a class
    that is not in these sources; the events here are the others. *)

Class PyNumKeys (F : Type) `{PyNum F} : Type := {
  lit_10 : F;                   (* 10.0 *)
  lit_0_005 : F;                (* 0.005 *)
  lit_0_001 : F;                (* 0.001 *)
  ngtb : F -> F -> bool         (* a > b *)
}.

Module InputHandler.

Section Keys.
Context {F : Type} `{PyNumKeys F}.

(** [max(a, b)]: the first argument stays unless the second is greater. *)
Definition pymax (a b : F) : F := if ngtb b a then b else a.

Inductive key : Type := K_SPACE | K_UP | K_DOWN | K_LEFT | K_RIGHT | K_other.

Inductive event : Type :=
| KEYDOWN (k : key)
| OtherEvent.

(** The attributes of [SimulationService] the handler touches. *)
Record service : Type := Service {
  time_step : F;
  simulation : GravitySimulation.t F
}.

Definition handle_input (simulation_service : service) (ev : event) : service :=
  let sim := simulation simulation_service in
  match ev with
  | KEYDOWN K_SPACE =>
      Service (time_step simulation_service)
        (GravitySimulation.set_paused (negb (GravitySimulation.paused sim)) sim)
  | KEYDOWN K_UP =>
      Service (time_step simulation_service)
        (Api.set_gravitational_constant
           (nadd (GravitySimulation.gravitational_constant sim) lit_10) sim)
  | KEYDOWN K_DOWN =>
      let new_g := nsub (GravitySimulation.gravitational_constant sim) lit_10 in
      Service (time_step simulation_service)
        (Api.set_gravitational_constant (pymax num0 new_g) sim)
  | KEYDOWN K_LEFT =>
      let new_time_step := nsub (time_step simulation_service) lit_0_005 in
      let ts := pymax lit_0_001 new_time_step in
      Service ts (Api.set_time_step_display ts sim)
  | KEYDOWN K_RIGHT =>
      let ts := nadd (time_step simulation_service) lit_0_005 in
      Service ts (Api.set_time_step_display ts sim)
  | KEYDOWN K_other => simulation_service
  | OtherEvent => simulation_service
  end.

End Keys.
End InputHandler.

(** ** frontend/app.py: [hex_to_rgb]

    A Python string is a list of code points.  [int(s, 16)] is the
    language's: a parameter. *)

Module Frontend.

Section Hex.
Variable int16 : list Z -> Py Z.

(** [s.lstrip('#')] *)
Fixpoint lstrip_hash (s : list Z) : list Z :=
  match s with
  | c :: rest => if Z.eqb c 35 then lstrip_hash rest else s
  | [] => []
  end.

(** [s[i:j]] for [0 <= i <= j]. *)
Definition slice (s : list Z) (i j : nat) : list Z := take (j - i) (drop i s).

Definition hex_to_rgb (hex_color_str : list Z) : Py (Z * Z * Z) :=
  let hex_color := lstrip_hash hex_color_str in
  if Nat.eqb (length hex_color) 6 then
    let* r := int16 (slice hex_color 0 2) in
    let* g := int16 (slice hex_color 2 4) in
    let* b := int16 (slice hex_color 4 6) in
    ret (r, g, b)
  else if Nat.eqb (length hex_color) 3 then
    let* r := int16 (slice hex_color 0 1 ++ slice hex_color 0 1) in
    let* g := int16 (slice hex_color 1 2 ++ slice hex_color 1 2) in
    let* b := int16 (slice hex_color 2 3 ++ slice hex_color 2 3) in
    ret (r, g, b)
  else raise (ValueError "Invalid hex color format. Expected #RRGGBB or #RGB.").

End Hex.
End Frontend.

(** ** Two carriers for the numbers *)

(** Exact arithmetic: the real numbers.  Nothing overflows or rounds; a
    negative radicand is the only way a power or a root fails.  This is not
    the arithmetic of the program: it serves the bounds of the keyboard
    handler only, which hold on floats as well. *)
Module RealNum.

Definition Reqb (a b : R) : bool := if Req_dec_T a b then true else false.
Definition Rleb (a b : R) : bool := if Rle_dec a b then true else false.

#[export] Instance real_num : PyNum R := {|
  num0 := 0%R;
  num1 := 1%R;
  nadd := Rplus;
  nsub := Rminus;
  nmul := Rmult;
  nquot := Rdiv;
  neqb := Reqb;
  nleb := Rleb;
  nsquare := fun a => ret (a * a)%R;
  nroot := fun a => if Rlt_dec a 0 then raise TypeError else ret (sqrt a);
  nsqrt := fun a =>
    if Rlt_dec a 0 then raise (ValueError "math domain error") else ret (sqrt a)
|}.

End RealNum.

(** Binary64 floats, as CPython computes on them: [**] raises
    [OverflowError] when a finite operand gives an infinite result.  The
    value of [a ** 2] is taken as the rounded product and that of
    [a ** 0.5] as the rounded root; the C library's [pow] may differ from
    them in the last digit, on which no statement below depends. *)
Module FloatNum.

Definition is_finite (a : PrimFloat.float) : bool :=
  negb (PrimFloat.is_nan a || PrimFloat.is_infinity a).

Definition fsquare (a : PrimFloat.float) : Py PrimFloat.float :=
  let r := PrimFloat.mul a a in
  if is_finite a && PrimFloat.is_infinity r then raise OverflowError else ret r.

Definition froot (a : PrimFloat.float) : Py PrimFloat.float :=
  if PrimFloat.ltb a PrimFloat.zero
  then if PrimFloat.is_infinity a then ret PrimFloat.infinity else raise TypeError
  else ret (PrimFloat.sqrt a).

Definition fsqrt (a : PrimFloat.float) : Py PrimFloat.float :=
  if PrimFloat.ltb a PrimFloat.zero then raise (ValueError "math domain error")
  else ret (PrimFloat.sqrt a).

#[export] Instance float_num : PyNum PrimFloat.float := {|
  num0 := PrimFloat.zero;
  num1 := PrimFloat.one;
  nadd := PrimFloat.add;
  nsub := PrimFloat.sub;
  nmul := PrimFloat.mul;
  nquot := PrimFloat.div;
  neqb := PrimFloat.eqb;
  nleb := PrimFloat.leb;
  nsquare := fsquare;
  nroot := froot;
  nsqrt := fsqrt
|}.

End FloatNum.

(** What a binary64 value is, read off its specification [FloatOps.Prim2SF]:
    the vocabulary of the facts about float results. *)
Module Binary64.

Definition is_zero_sf (a : SpecFloat.spec_float) : bool :=
  match a with SpecFloat.S754_zero _ => true | _ => false end.

(** Not below zero: a zero of either sign, a number above zero, an
    infinity above zero, or a NaN. *)
Definition not_negative_sf (a : SpecFloat.spec_float) : bool :=
  match a with
  | SpecFloat.S754_finite s _ _ | SpecFloat.S754_infinity s => negb s
  | _ => true
  end.

(** Above zero, or a NaN. *)
Definition above_zero_sf (a : SpecFloat.spec_float) : bool :=
  match a with
  | SpecFloat.S754_finite s _ _ | SpecFloat.S754_infinity s => negb s
  | SpecFloat.S754_zero _ => false
  | SpecFloat.S754_nan => true
  end.

(** A finite value whose leading digit is at position -536 or above: of
    absolute value at least [2^-537]. *)
Definition root_sized_sf (a : SpecFloat.spec_float) : Prop :=
  match a with
  | SpecFloat.S754_finite _ m e => -536 <= SpecFloat.Zdigits2 (Z.pos m) + e
  | _ => True
  end.

End Binary64.

(** The literals and [>] of the keyboard handler, on both carriers. *)
Module Keys.
Import RealNum.
Import FloatNum.
Import PrimFloat.

Definition Rgtb (a b : R) : bool := if Rgt_dec a b then true else false.

#[export] Instance real_keys : PyNumKeys R := {|
  lit_10 := 10%R;
  lit_0_005 := (5 / 1000)%R;
  lit_0_001 := (1 / 1000)%R;
  ngtb := Rgtb
|}.

(** [0.005] and [0.001] as binary64 rounds them. *)
#[export] Instance float_keys : PyNumKeys PrimFloat.float := {|
  lit_10 := 10%float;
  lit_0_005 := 0x1.47ae147ae147bp-8%float;
  lit_0_001 := 0x1.0624dd2f1a9fcp-10%float;
  ngtb := fun a b => PrimFloat.ltb b a
|}.

End Keys.

(** ** simulation_manager.py, and the handler that resets the engine

    The manager is a singleton whose [simulation] attribute refers to an
    engine object; [reset_simulation] makes a new engine and lets the
    attribute refer to it.  Engines and bodies are objects in two stores.
    The float literals of the file are binary64 floats; its integer
    literals (positions, velocities, radii) are taken as the floats of the
    same value.

    The model is of the module once it is loaded.  The signature of
    [reset_simulation] is annotated with [Optional], which the file does
    not import: an interpreter that evaluates annotations when the function
    is defined (before Python 3.14) raises [NameError] while it loads the
    module, and no method of the class can then be called. *)

Module SimulationManager.
Import FloatNum.
Import PrimFloat.

Definition DEFAULT_G : float := 100%float.

(** [0.01] *)
Definition DEFAULT_TIME_STEP : float := 0x1.47ae147ae147bp-7%float.

(** [1e-9], the default of the [epsilon] argument of [GravitySimulation]. *)
Definition default_epsilon : float := 0x1.12e0be826d695p-30%float.

Record app : Type := App {
  engines : nat -> GravitySimulation.t float;
  objects : GravitySimulation.addr -> CelestialBody.t float;
  next_engine : nat;
  next_object : GravitySimulation.addr;
  simulation : nat
}.

Definition set_engine_at (e : nat) (s : GravitySimulation.t float) (a : app) : app :=
  App (fun e' => if decide (e' = e) then s else engines a e')
      (objects a) (next_engine a) (next_object a) (simulation a).

(** [CelestialBody(...)]: the constructor, and a new object when it
    returns. *)
Definition new_body (mass0 : float) (position0 velocity0 : Vector2D.t float)
    (radius0 : float) (color0 : Z * Z * Z) (id0 : string) (a : app)
    : Py GravitySimulation.addr * app :=
  match CelestialBody.init mass0 position0 velocity0 radius0 color0 id0 with
  | inl e => (inl e, a)
  | inr b =>
      (inr (next_object a),
       App (engines a)
           (fun o => if decide (o = next_object a) then b else objects a o)
           (next_engine a) (S (next_object a)) (simulation a))
  end.

(** [self.simulation.add_body(body)] *)
Definition add_to_current (body : GravitySimulation.addr) (a : app) : app :=
  let s := engines a (simulation a) in
  set_engine_at (simulation a)
    (GravitySimulation.set_bodies (GravitySimulation.bodies s ++ [body]) s) a.

Definition _initialize_default_bodies (a : app) : Py unit * app :=
  let s := engines a (simulation a) in
  let a0 := set_engine_at (simulation a) (GravitySimulation.set_bodies [] s) a in
  match new_body 1989000%float (Vector2D.mk 400%float 300%float)
          (Vector2D.mk 0%float 0%float) 20%float (255, 255, 0) "sun" a0 with
  | (inl e, a1) => (inl e, a1)
  | (inr sun, a1) =>
      match new_body 5972%float (Vector2D.mk 400%float 500%float)
              (Vector2D.mk 15%float 0%float) 7%float (0, 100, 255) "earth" a1 with
      | (inl e, a2) => (inl e, a2)
      | (inr earth, a2) =>
          match new_body 0x1.25e147ae147aep+6%float (Vector2D.mk 400%float 520%float)
                  (Vector2D.mk (15 + 2)%float 0%float) 3%float (128, 128, 128) "moon" a2 with
          | (inl e, a3) => (inl e, a3)
          | (inr moon, a3) =>
              (inr tt, add_to_current moon (add_to_current earth (add_to_current sun a3)))
          end
      end
  end.

Definition get_simulation_instance (a : app) : nat := simulation a.

Definition reset_simulation (gravitational_constant time_step : option float) (a : app)
    : Py nat * app :=
  let current_g := default DEFAULT_G gravitational_constant in
  let current_ts := default DEFAULT_TIME_STEP time_step in
  let e := next_engine a in
  let a1 :=
    App (fun e' => if decide (e' = e)
                   then Api.set_time_step_display current_ts
                          (GravitySimulation.init current_g default_epsilon)
                   else engines a e')
        (objects a) (S e) (next_object a) e in
  match _initialize_default_bodies a1 with
  | (inl ex, a2) => (inl ex, a2)
  | (inr _, a2) => (inr (simulation a2), a2)
  end.

(** The engine at [e] with the bodies, as the methods of the engine see
    them. *)
Definition view (e : nat) (a : app) : GravitySimulation.world float :=
  GravitySimulation.World (engines a e) (objects a).

Definition write_back (e : nat) (w : GravitySimulation.world float) (a : app) : app :=
  App (fun e' => if decide (e' = e) then GravitySimulation.self w else engines a e')
      (GravitySimulation.heap w) (next_engine a) (next_object a) (simulation a).

(** One tick of a stepper whose local variable [simulation] refers to the
    engine at [e]: the coroutine fetched it once, before its loop. *)
Definition tick_of_stepper (e : nat) (a : app) : Py unit * app :=
  let r := Tasks.tick (Tasks.State (view e a) false []) in
  (fst r, write_back e (Tasks.simulation (snd r)) a).

(** [start_reset_simulation] of main_api.py. *)
Definition start_reset_simulation (request_data : option (option float * option float))
    (a : app) : Py Api.SimulationStatusResponse * app :=
  let g_const :=
    match request_data with
    | Some (Some g, _) => g
    | _ => DEFAULT_G
    end in
  let t_step :=
    match request_data with
    | Some (_, Some t) => t
    | _ => DEFAULT_TIME_STEP
    end in
  match reset_simulation (Some g_const) (Some t_step) a with
  | (inl ex, a1) => (inl ex, a1)
  | (inr sim_instance, a1) => (inr (Api.status_of (view sim_instance a1)), a1)
  end.

(** [SimulationManager.__init__], run by the first [SimulationManager()]. *)
Definition init (a : app) : Py unit * app :=
  let e := next_engine a in
  let a1 :=
    App (fun e' => if decide (e' = e)
                   then Api.set_time_step_display DEFAULT_TIME_STEP
                          (GravitySimulation.init DEFAULT_G default_epsilon)
                   else engines a e')
        (objects a) (S e) (next_object a) e in
  _initialize_default_bodies a1.

(** The stores before any object is made. *)
Definition blank : app :=
  App (fun _ => GravitySimulation.init DEFAULT_G default_epsilon)
      (fun _ => CelestialBody.mk "" 1%float (Vector2D.mk 0%float 0%float)
                  (Vector2D.mk 0%float 0%float) 1%float (0, 0, 0) [] 50)
      0%nat 0%nat 0%nat.

End SimulationManager.

(** * Vocabulary of the statements *)

Module Describe.

Section Generic.
Context {F : Type} `{PyNum F}.

(** The acceleration [force * (1.0 / m)], for a mass that has passed the
    zero test of [apply_force]. *)
Definition accel (force : Vector2D.t F) (m : F) : Vector2D.t F :=
  Vector2D.mul force (nquot num1 m).

(** What [apply_force] leaves in the object, written without exceptions. *)
Definition force_applied (b : CelestialBody.t F) (force : Vector2D.t F) (dt : F)
    : CelestialBody.t F :=
  if neqb (CelestialBody.mass b) num0 then b
  else
    CelestialBody.set_velocity
      (Vector2D.add (CelestialBody.velocity b) (Vector2D.mul (accel force (CelestialBody.mass b)) dt))
      b.

(** The position an [update_position] call moves to. *)
Definition moved (b : CelestialBody.t F) (dt : F) : Vector2D.t F :=
  Vector2D.add (CelestialBody.position b) (Vector2D.mul (CelestialBody.velocity b) dt).

(** A run of [update_position] calls, one per entry of [dts]. *)
Definition run_update_position (b : CelestialBody.t F) (dts : list F)
    : CelestialBody.t F :=
  fold_left CelestialBody.update_position dts b.

(** The positions those calls move to, first call first. *)
Fixpoint recorded (b : CelestialBody.t F) (dts : list F) : list (Vector2D.t F) :=
  match dts with
  | [] => []
  | dt :: rest =>
      moved b dt :: recorded (CelestialBody.update_position b dt) rest
  end.

(** One pass over the addresses [l], rewriting each object by [g]. *)
Definition sweep (g : GravitySimulation.addr -> CelestialBody.t F -> CelestialBody.t F)
    (l : list GravitySimulation.addr) (w : GravitySimulation.world F)
    : GravitySimulation.world F :=
  fold_left
    (fun w a => GravitySimulation.set_body a (g a (GravitySimulation.heap w a)) w)
    l w.

(** The velocity phase of a step. *)
Definition apply_forces (forces : gmap GravitySimulation.addr (Vector2D.t F)) (dt : F) :=
  sweep (fun a b => force_applied b (default Vector2D.zero (forces !! a)) dt).

(** The position phase of a step. *)
Definition update_positions (dt : F) :=
  sweep (fun _ b => CelestialBody.update_position b dt).






End Generic.

End Describe.

(** What one tick of the stepper makes of the engine. *)
Module Stepping.

Definition advance {F : Type} `{PyNum F} (w : GravitySimulation.world F)
    : GravitySimulation.world F :=
  snd (GravitySimulation.update
         (GravitySimulation.time_step_display (GravitySimulation.self w)) w).

(** What the [update] call of a tick returns or raises. *)
Definition tick_result {F : Type} `{PyNum F} (w : GravitySimulation.world F) : Py unit :=
  fst (GravitySimulation.update
         (GravitySimulation.time_step_display (GravitySimulation.self w)) w).

(** A sleep during which no other task touches anything. *)
Definition quiet_sleep {F : Type} `{PyNum F} : Tasks.sleep_event (F := F) :=
  Tasks.Wake (fun s => s).

End Stepping.

(** * Concrete inputs, on binary64 floats *)

Module Sample.
Import FloatNum.
Import PrimFloat.

Definition vec (a b : PrimFloat.float) : Vector2D.t PrimFloat.float :=
  Vector2D.mk a b.

Definition origin : Vector2D.t PrimFloat.float :=
  vec PrimFloat.zero PrimFloat.zero.

(** Mass 10 at rest at (0, 0). *)
Definition body_a : CelestialBody.t PrimFloat.float :=
  CelestialBody.mk "a" 10%float origin origin 1%float (0, 0, 0) [] 50.

(** Mass 20 at rest at (10, 0). *)
Definition body_b : CelestialBody.t PrimFloat.float :=
  CelestialBody.mk "b" 20%float (vec 10%float 0%float) origin 1%float (0, 0, 0) [] 50.

(** Mass 5 at (2^700, 0), moving: the square of its distance to the origin
    is beyond the float range. *)
Definition body_far : CelestialBody.t PrimFloat.float :=
  CelestialBody.mk "far" 5%float (vec 0x1p+700%float 0%float) (vec 1%float 2%float)
    1%float (0, 0, 0) [] 50.

(** [body_a] after [mass] was set to 0, moving. *)
Definition body_massless : CelestialBody.t PrimFloat.float :=
  CelestialBody.set_velocity (vec 3%float 4%float)
    (CelestialBody.set_mass 0%float body_a).

(** [body_far] after [max_trail_length] was set to 0. *)
Definition body_no_trail : CelestialBody.t PrimFloat.float :=
  CelestialBody.set_max_trail_length 0 body_far.

Definition heap0 (a : GravitySimulation.addr) : CelestialBody.t PrimFloat.float :=
  match a with
  | O => body_a
  | 1%nat => body_b
  | _ => body_far
  end.

(** G = 100, softening 2^-40, step 1/8, the two bodies at addresses 0 and 1. *)
Definition engine0 : GravitySimulation.t PrimFloat.float :=
  GravitySimulation.mk 100%float [0%nat; 1%nat] 0x1p-40%float false 0.125%float ∅.

Definition world0 : GravitySimulation.world PrimFloat.float :=
  GravitySimulation.World engine0 heap0.

Definition world_paused : GravitySimulation.world PrimFloat.float :=
  GravitySimulation.World (GravitySimulation.set_paused true engine0) heap0.

(** [world0] after a request added the far body (address 2). *)
Definition world_far : GravitySimulation.world PrimFloat.float :=
  snd (GravitySimulation.add_body 2%nat world0).

Definition stepper0 : Tasks.state (F := PrimFloat.float) :=
  Tasks.State world_far false [].

End Sample.

(** * Concrete inputs, on real numbers *)

Module SampleReal.
Import RealNum.

Definition origin : Vector2D.t R := Vector2D.mk 0%R 0%R.

(** Two bodies at the same place, and a third one away from them. *)
Definition body_p : CelestialBody.t R :=
  CelestialBody.mk "p" 10%R origin origin 1%R (0, 0, 0) [] 50.

Definition body_q : CelestialBody.t R :=
  CelestialBody.mk "q" 20%R origin origin 1%R (0, 0, 0) [] 50.

Definition body_r : CelestialBody.t R :=
  CelestialBody.mk "r" 30%R (Vector2D.mk 3%R 4%R) origin 1%R (0, 0, 0) [] 50.

Definition heap0 (a : GravitySimulation.addr) : CelestialBody.t R :=
  match a with
  | O => body_p
  | 1%nat => body_q
  | _ => body_r
  end.

Definition world0 : GravitySimulation.world R :=
  GravitySimulation.World
    (GravitySimulation.mk 100%R [0%nat; 1%nat; 2%nat] 1%R false 1%R ∅) heap0.

End SampleReal.

(** * More concrete inputs *)

Module SampleMore.
Import FloatNum.
Import PrimFloat.

(** [Sample.world0] after [add_body] was called once more with the object
    at address 0: the list is [0; 1; 0]. *)
Definition world_twice : GravitySimulation.world float :=
  snd (GravitySimulation.add_body 0%nat Sample.world0).

(** A body whose bound was lowered to 1 while its trail held two entries. *)
Definition body_long_trail : CelestialBody.t float :=
  CelestialBody.set_max_trail_length 1
    (CelestialBody.set_trail [Sample.origin; Sample.vec 1%float 1%float] Sample.body_far).

(** The stepper on the engine with two bodies, at the head of its loop. *)
Definition stepper_idle : Tasks.state (F := float) :=
  Tasks.State Sample.world0 false [].

(** Another task asks the stepper to stop. *)
Definition ask_stop (s : Tasks.state (F := float)) : Tasks.state (F := float) :=
  Tasks.set_stop true s.

(** The module after one start: one task, not done. *)
Definition control_running : TaskControl.state (F := float) :=
  TaskControl.State stepper_idle (Some false) 1.

(** The engine with the far body, paused. *)
Definition world_far_paused : GravitySimulation.world float :=
  Api.set_engine (GravitySimulation.set_paused true) Sample.world_far.

(** The application after the first [SimulationManager()]. *)
Definition app_started : SimulationManager.app :=
  snd (SimulationManager.init SimulationManager.blank).

End SampleMore.

Module SampleRealMore.
Import RealNum.
Import Keys.

Definition service_real : InputHandler.service (F := R) :=
  InputHandler.Service (1 / 100)%R (GravitySimulation.self SampleReal.world0).

End SampleRealMore.

(** * Facts about [Vector2D] and [CelestialBody], for any numbers *)

Section BodyFacts.
Context {F : Type} `{PyNum F}.

Lemma copy_eq (v : Vector2D.t F) : Vector2D.copy v = v.
Proof. destruct v; reflexivity. Qed.

Lemma ndiv_nonzero (a b : F) :
  neqb b num0 = false -> ndiv a b = inr (nquot a b).
Proof. intros Hb. unfold ndiv. rewrite Hb. reflexivity. Qed.

Lemma ndiv_zero (a b : F) :
  neqb b num0 = true -> ndiv a b = inl ZeroDivisionError.
Proof. intros Hb. unfold ndiv. rewrite Hb. reflexivity. Qed.

(** [apply_force] always returns, and leaves [force_applied] behind. *)
Lemma apply_force_total (b : CelestialBody.t F) (f : Vector2D.t F) (dt : F) :
  CelestialBody.apply_force b f dt = inr (Describe.force_applied b f dt).
Proof.
  unfold CelestialBody.apply_force, Describe.force_applied, Describe.accel.
  destruct (neqb (CelestialBody.mass b) num0) eqn:Hm.
  - reflexivity.
  - rewrite (ndiv_nonzero _ _ Hm). reflexivity.
Qed.

(** C6. [apply_force(f, dt)] raises nothing; on a body whose mass is not
    zero it adds [(f * (1/m)) * dt] to the velocity, on a body whose mass is
    zero it returns the body as it was. *)
Theorem apply_force_changes_velocity
    (b : CelestialBody.t F) (f : Vector2D.t F) (dt : F) :
  exists b' : CelestialBody.t F,
    CelestialBody.apply_force b f dt = inr b' /\
    (neqb (CelestialBody.mass b) num0 = false ->
       CelestialBody.velocity b' =
       Vector2D.add (CelestialBody.velocity b)
         (Vector2D.mul (Vector2D.mul f (nquot num1 (CelestialBody.mass b))) dt)) /\
    (neqb (CelestialBody.mass b) num0 = true -> b' = b).
Proof.
  exists (Describe.force_applied b f dt).
  split; [apply apply_force_total |].
  unfold Describe.force_applied, Describe.accel.
  split; intros Hm; rewrite Hm; [reflexivity | reflexivity].
Qed.

(** C7. The constructor raises exactly when [mass <= 0] or [radius <= 0],
    and then it raises [ValueError]; when it returns, the body carries the
    arguments unchanged and an empty trail. *)
Theorem init_rejects_nonpositive
    (mass0 : F) (position0 velocity0 : Vector2D.t F) (radius0 : F)
    (color0 : Z * Z * Z) (id0 : string) :
  let made := CelestialBody.init mass0 position0 velocity0 radius0 color0 id0 in
  ((exists e, made = inl e) <->
     (nleb mass0 num0 = true \/ nleb radius0 num0 = true)) /\
  (forall e, made = inl e -> exists msg, e = ValueError msg) /\
  (forall b, made = inr b ->
     CelestialBody.id b = id0 /\ CelestialBody.mass b = mass0 /\
     CelestialBody.position b = position0 /\ CelestialBody.velocity b = velocity0 /\
     CelestialBody.radius b = radius0 /\ CelestialBody.color b = color0 /\
     CelestialBody.trail b = []).
Proof.
  cbv zeta. unfold CelestialBody.init.
  destruct (nleb mass0 num0) eqn:Hm; [| destruct (nleb radius0 num0) eqn:Hr].
  - split; [| split].
    + split; [intros _; left; reflexivity | intros _; eexists; reflexivity].
    + intros e He. inversion He. eexists; reflexivity.
    + intros b Hb. discriminate Hb.
  - split; [| split].
    + split; [intros _; right; reflexivity | intros _; eexists; reflexivity].
    + intros e He. inversion He. eexists; reflexivity.
    + intros b Hb. discriminate Hb.
  - split; [| split].
    + split.
      * intros [e He]. discriminate He.
      * intros [Hc | Hc]; discriminate Hc.
    + intros e He. discriminate He.
    + intros b Hb. inversion Hb; subst b. cbn. repeat split.
Qed.

(** C10. [apply_force] returns and changes no field but [velocity];
    [update_position] changes no field but [position] and [trail]. *)
Theorem methods_frame (b : CelestialBody.t F) (f : Vector2D.t F) (dt : F) :
  (exists b', CelestialBody.apply_force b f dt = inr b' /\
     CelestialBody.position b' = CelestialBody.position b /\
     CelestialBody.trail b' = CelestialBody.trail b /\
     CelestialBody.mass b' = CelestialBody.mass b /\
     CelestialBody.radius b' = CelestialBody.radius b /\
     CelestialBody.color b' = CelestialBody.color b /\
     CelestialBody.id b' = CelestialBody.id b /\
     CelestialBody.max_trail_length b' = CelestialBody.max_trail_length b) /\
  (let b' := CelestialBody.update_position b dt in
   CelestialBody.velocity b' = CelestialBody.velocity b /\
   CelestialBody.mass b' = CelestialBody.mass b /\
   CelestialBody.radius b' = CelestialBody.radius b /\
   CelestialBody.color b' = CelestialBody.color b /\
   CelestialBody.id b' = CelestialBody.id b /\
   CelestialBody.max_trail_length b' = CelestialBody.max_trail_length b).
Proof.
  split.
  - exists (Describe.force_applied b f dt).
    split; [apply apply_force_total |].
    unfold Describe.force_applied.
    destruct (neqb (CelestialBody.mass b) num0); cbn; repeat split.
  - cbv zeta. unfold CelestialBody.update_position. cbv zeta.
    match goal with |- context [if ?c then _ else _] => destruct c end;
      cbn; repeat split.
Qed.

End BodyFacts.

(** * The trail of a body *)

Section TrailFacts.
Context {F : Type} `{PyNum F}.

Lemma update_position_position (b : CelestialBody.t F) (dt : F) :
  CelestialBody.position (CelestialBody.update_position b dt) = Describe.moved b dt.
Proof.
  unfold CelestialBody.update_position. cbv zeta.
  match goal with |- context [if ?c then _ else _] => destruct c end; reflexivity.
Qed.


Lemma update_position_max (b : CelestialBody.t F) (dt : F) :
  CelestialBody.max_trail_length (CelestialBody.update_position b dt)
  = CelestialBody.max_trail_length b.
Proof.
  unfold CelestialBody.update_position. cbv zeta.
  match goal with |- context [if ?c then _ else _] => destruct c end; reflexivity.
Qed.

Lemma pop0_drop {A : Type} (l : list A) : CelestialBody.pop0 l = drop 1 l.
Proof. destruct l; reflexivity. Qed.

(** One call: the new position goes on the end, and the head goes when the
    list has grown past the bound. *)
Lemma update_position_trail (b : CelestialBody.t F) (dt : F) :
  Z.of_nat (length (CelestialBody.trail b)) <= CelestialBody.max_trail_length b ->
  CelestialBody.trail (CelestialBody.update_position b dt)
  = drop (S (length (CelestialBody.trail b))
          - Z.to_nat (CelestialBody.max_trail_length b))
      (CelestialBody.trail b ++ [Describe.moved b dt]).
Proof.
  intros Hlen.
  unfold CelestialBody.update_position. cbv zeta. cbn.
  rewrite copy_eq. fold (Describe.moved b dt).
  rewrite length_app. cbn [length].
  destruct (Z.gtb_spec (Z.of_nat (length (CelestialBody.trail b) + 1))
              (CelestialBody.max_trail_length b)) as [Hgt | Hle]; cbn.
  - rewrite pop0_drop. f_equal. lia.
  - replace (S (length (CelestialBody.trail b))
             - Z.to_nat (CelestialBody.max_trail_length b))%nat with 0%nat by lia.
    reflexivity.
Qed.

Lemma update_position_trail_length (b : CelestialBody.t F) (dt : F) :
  Z.of_nat (length (CelestialBody.trail b)) <= CelestialBody.max_trail_length b ->
  Z.of_nat (length (CelestialBody.trail (CelestialBody.update_position b dt)))
  <= CelestialBody.max_trail_length b.
Proof.
  intros Hlen. rewrite (update_position_trail b dt Hlen).
  rewrite length_drop, length_app. cbn [length]. lia.
Qed.

(** Any number of calls: the trail is the end of the history. *)
Lemma run_trail (dts : list F) : forall b : CelestialBody.t F,
  Z.of_nat (length (CelestialBody.trail b)) <= CelestialBody.max_trail_length b ->
  CelestialBody.max_trail_length (Describe.run_update_position b dts)
  = CelestialBody.max_trail_length b /\
  CelestialBody.trail (Describe.run_update_position b dts)
  = drop (length (CelestialBody.trail b ++ Describe.recorded b dts)
          - Z.to_nat (CelestialBody.max_trail_length b))
      (CelestialBody.trail b ++ Describe.recorded b dts).
Proof.
  induction dts as [| dt rest IH]; intros b Hlen.
  - cbn. split; [reflexivity |].
    rewrite app_nil_r.
    replace (length (CelestialBody.trail b)
             - Z.to_nat (CelestialBody.max_trail_length b))%nat with 0%nat by lia.
    reflexivity.
  - cbn [Describe.run_update_position fold_left Describe.recorded].
    fold (Describe.run_update_position (CelestialBody.update_position b dt) rest).
    pose proof (update_position_trail_length b dt Hlen) as Hlen1.
    rewrite <- (update_position_max b dt) in Hlen1.
    destruct (IH _ Hlen1) as [Hmax Htrail].
    rewrite Hmax, Htrail, (update_position_max b dt).
    split; [reflexivity |].
    rewrite (update_position_trail b dt Hlen).
    set (m := Z.to_nat (CelestialBody.max_trail_length b)).
    set (tb := CelestialBody.trail b).
    set (rec := Describe.recorded (CelestialBody.update_position b dt) rest).
    assert (Hm : (length tb <= m)%nat) by (subst tb m; lia).
    rewrite <- drop_app_le by (rewrite length_app; cbn; lia).
    rewrite <- app_assoc. cbn [app].
    rewrite drop_drop. f_equal.
    rewrite length_drop, !length_app. cbn [length]. lia.
Qed.

Lemma run_trail_length (dts : list F) (b : CelestialBody.t F) :
  Z.of_nat (length (CelestialBody.trail b)) <= CelestialBody.max_trail_length b ->
  Z.of_nat (length (CelestialBody.trail (Describe.run_update_position b dts)))
  <= CelestialBody.max_trail_length b.
Proof.
  intros Hlen. destruct (run_trail dts b Hlen) as [_ ->].
  rewrite length_drop. lia.
Qed.

(** C5, amended.  Starting from a trail no longer than [max_trail_length],
    after any calls of [update_position] the trail is the last
    [max_trail_length] entries of the history (the old trail followed by the
    positions the calls moved to, in order): it never exceeds the bound, it
    stays at the bound once there, and, when the bound is at least 1, its
    last entry is the position the latest call moved to. *)
Theorem trail_is_recent_history (b : CelestialBody.t F) (dts : list F) :
  Z.of_nat (length (CelestialBody.trail b)) <= CelestialBody.max_trail_length b ->
  let b' := Describe.run_update_position b dts in
  let history := CelestialBody.trail b ++ Describe.recorded b dts in
  Z.of_nat (length (CelestialBody.trail b')) <= CelestialBody.max_trail_length b /\
  CelestialBody.trail b'
  = drop (length history - Z.to_nat (CelestialBody.max_trail_length b)) history /\
  (Z.of_nat (length (CelestialBody.trail b)) = CelestialBody.max_trail_length b ->
   Z.of_nat (length (CelestialBody.trail b')) = CelestialBody.max_trail_length b) /\
  (1 <= CelestialBody.max_trail_length b -> dts <> [] ->
   last (CelestialBody.trail b') = Some (CelestialBody.position b')).
Proof.
  intros Hlen. cbv zeta.
  split; [apply run_trail_length, Hlen |].
  split; [apply (run_trail dts b Hlen) |].
  split.
  - intros Hfull. destruct (run_trail dts b Hlen) as [_ ->].
    rewrite length_drop, length_app. lia.
  - intros Hpos Hdts.
    destruct dts as [| d0 ds] using rev_ind; [contradiction |].
    clear IHds Hdts.
    unfold Describe.run_update_position. rewrite fold_left_app. cbn [fold_left].
    fold (Describe.run_update_position b ds).
    set (bp := Describe.run_update_position b ds).
    assert (Hp : Z.of_nat (length (CelestialBody.trail bp))
                 <= CelestialBody.max_trail_length bp).
    { subst bp. destruct (run_trail ds b Hlen) as [-> _].
      apply run_trail_length, Hlen. }
    assert (Hmaxp : CelestialBody.max_trail_length bp
                    = CelestialBody.max_trail_length b)
      by (subst bp; apply (run_trail ds b Hlen)).
    rewrite (update_position_trail bp d0 Hp), update_position_position.
    rewrite drop_app_le by lia.
    apply last_snoc.
Qed.

End TrailFacts.

(** * The engine, for any numbers *)

Section EngineFacts.
Context {F : Type} `{PyNum F}.

(** ** Passes over the bodies *)

Lemma sweep_cons g (a : GravitySimulation.addr) l (w : GravitySimulation.world F) :
  Describe.sweep g (a :: l) w
  = Describe.sweep g l
      (GravitySimulation.set_body a (g a (GravitySimulation.heap w a)) w).
Proof. reflexivity. Qed.


Lemma sweep_self g (l : list GravitySimulation.addr) : forall w : GravitySimulation.world F,
  GravitySimulation.self (Describe.sweep g l w) = GravitySimulation.self w.
Proof.
  induction l as [| a l IH]; intros w; [reflexivity |].
  rewrite sweep_cons, IH. reflexivity.
Qed.

Lemma set_body_same (a : GravitySimulation.addr) b (w : GravitySimulation.world F) :
  GravitySimulation.heap (GravitySimulation.set_body a b w) a = b.
Proof. cbn. destruct (decide (a = a)); [reflexivity | contradiction]. Qed.

Lemma set_body_other (a a' : GravitySimulation.addr) b (w : GravitySimulation.world F) :
  a' <> a ->
  GravitySimulation.heap (GravitySimulation.set_body a b w) a'
  = GravitySimulation.heap w a'.
Proof. intros Hne. cbn. destruct (decide (a' = a)); [contradiction | reflexivity]. Qed.

(** An object the pass does not visit is left alone. *)
Lemma sweep_untouched g (l : list GravitySimulation.addr) (a : GravitySimulation.addr) :
  forall w : GravitySimulation.world F, a ∉ l ->
  GravitySimulation.heap (Describe.sweep g l w) a = GravitySimulation.heap w a.
Proof.
  induction l as [| a0 l IH]; intros w Hnotin; [reflexivity |].
  rewrite sweep_cons, IH by set_solver.
  apply set_body_other. set_solver.
Qed.



(** The velocity loop of [update] never raises. *)
Lemma for_each_apply_force forces (dt : F) (l : list GravitySimulation.addr) :
  forall w : GravitySimulation.world F,
  GravitySimulation.for_each l
    (fun body =>
       GravitySimulation.call_apply_force body
         (default Vector2D.zero (forces !! body)) dt) w
  = (inr tt, Describe.apply_forces forces dt l w).
Proof.
  induction l as [| a l IH]; intros w; [reflexivity |].
  cbn [GravitySimulation.for_each]. unfold GravitySimulation.mbind at 1.
  unfold GravitySimulation.call_apply_force at 1.
  rewrite apply_force_total, IH. reflexivity.
Qed.

Lemma for_each_update_position (dt : F) (l : list GravitySimulation.addr) :
  forall w : GravitySimulation.world F,
  GravitySimulation.for_each l
    (fun body => GravitySimulation.call_update_position body dt) w
  = (inr tt, Describe.update_positions dt l w).
Proof.
  induction l as [| a l IH]; intros w; [reflexivity |].
  cbn [GravitySimulation.for_each]. unfold GravitySimulation.mbind at 1.
  unfold GravitySimulation.call_update_position at 1, GravitySimulation.write.
  rewrite IH. reflexivity.
Qed.

(** ** [calculate_net_forces] *)

(** The loops read the constant, the softening, the list and the objects,
    and nothing else of the world. *)
Lemma inner_loop_reads (w w' : GravitySimulation.world F) i body_a js :
  GravitySimulation.gravitational_constant (GravitySimulation.self w')
  = GravitySimulation.gravitational_constant (GravitySimulation.self w) ->
  GravitySimulation.epsilon (GravitySimulation.self w')
  = GravitySimulation.epsilon (GravitySimulation.self w) ->
  GravitySimulation.heap w' = GravitySimulation.heap w ->
  forall net,
  GravitySimulation.inner_loop w' i body_a js net
  = GravitySimulation.inner_loop w i body_a js net.
Proof.
  intros HG Heps Hheap.
  induction js as [| [j body_b] js IH]; intros net; [reflexivity |].
  cbn [GravitySimulation.inner_loop].
  rewrite HG, Heps, Hheap.
  destruct (decide (i = j)); [apply IH |].
  destruct (GravitySimulation.force_vec _ _ _ _); cbn; [reflexivity | apply IH].
Qed.

Lemma outer_loop_reads (w w' : GravitySimulation.world F) ias :
  GravitySimulation.gravitational_constant (GravitySimulation.self w')
  = GravitySimulation.gravitational_constant (GravitySimulation.self w) ->
  GravitySimulation.epsilon (GravitySimulation.self w')
  = GravitySimulation.epsilon (GravitySimulation.self w) ->
  GravitySimulation.bodies (GravitySimulation.self w')
  = GravitySimulation.bodies (GravitySimulation.self w) ->
  GravitySimulation.heap w' = GravitySimulation.heap w ->
  forall current_forces,
  GravitySimulation.outer_loop w' ias current_forces
  = GravitySimulation.outer_loop w ias current_forces.
Proof.
  intros HG Heps Hbodies Hheap.
  induction ias as [| [i body_a] ias IH]; intros current_forces; [reflexivity |].
  cbn [GravitySimulation.outer_loop].
  rewrite Hbodies, (inner_loop_reads w w') by assumption.
  destruct (GravitySimulation.inner_loop _ _ _ _ _); cbn; [reflexivity | apply IH].
Qed.

(** The method, with the monad unfolded. *)
Lemma calculate_net_forces_unfold (w : GravitySimulation.world F) :
  GravitySimulation.calculate_net_forces w
  = match GravitySimulation.outer_loop w
            (GravitySimulation.enumerate (GravitySimulation.bodies (GravitySimulation.self w)))
            ∅ with
    | inl e => (inl e, w)
    | inr current_forces =>
        (inr current_forces,
         GravitySimulation.World
           (GravitySimulation.set__net_forces current_forces (GravitySimulation.self w))
           (GravitySimulation.heap w))
    end.
Proof.
  unfold GravitySimulation.calculate_net_forces, GravitySimulation.mbind.
  destruct (GravitySimulation.outer_loop _ _ _); reflexivity.
Qed.

(** What a call leaves as it was: everything but [_net_forces]. *)
Lemma calculate_net_forces_frame (w : GravitySimulation.world F) :
  let after := snd (GravitySimulation.calculate_net_forces w) in
  GravitySimulation.heap after = GravitySimulation.heap w /\
  GravitySimulation.bodies (GravitySimulation.self after)
  = GravitySimulation.bodies (GravitySimulation.self w) /\
  GravitySimulation.gravitational_constant (GravitySimulation.self after)
  = GravitySimulation.gravitational_constant (GravitySimulation.self w) /\
  GravitySimulation.epsilon (GravitySimulation.self after)
  = GravitySimulation.epsilon (GravitySimulation.self w) /\
  GravitySimulation.paused (GravitySimulation.self after)
  = GravitySimulation.paused (GravitySimulation.self w) /\
  GravitySimulation.time_step_display (GravitySimulation.self after)
  = GravitySimulation.time_step_display (GravitySimulation.self w).
Proof.
  cbv zeta. rewrite calculate_net_forces_unfold.
  destruct (GravitySimulation.outer_loop _ _ _); cbn; repeat split.
Qed.

(** C9. A second call of [calculate_net_forces], made right after the
    first, yields the same result and leaves the state the first call left;
    the first call leaves every body, the list of bodies, the constant, the
    softening, the pause flag and the step as they were. *)
Theorem calculate_net_forces_repeatable (w : GravitySimulation.world F) :
  let first := GravitySimulation.calculate_net_forces w in
  let second := GravitySimulation.calculate_net_forces (snd first) in
  fst second = fst first /\
  snd second = snd first /\
  GravitySimulation.heap (snd first) = GravitySimulation.heap w /\
  GravitySimulation.bodies (GravitySimulation.self (snd first))
  = GravitySimulation.bodies (GravitySimulation.self w) /\
  GravitySimulation.gravitational_constant (GravitySimulation.self (snd first))
  = GravitySimulation.gravitational_constant (GravitySimulation.self w) /\
  GravitySimulation.epsilon (GravitySimulation.self (snd first))
  = GravitySimulation.epsilon (GravitySimulation.self w) /\
  GravitySimulation.paused (GravitySimulation.self (snd first))
  = GravitySimulation.paused (GravitySimulation.self w) /\
  GravitySimulation.time_step_display (GravitySimulation.self (snd first))
  = GravitySimulation.time_step_display (GravitySimulation.self w).
Proof.
  cbv zeta.
  split; [| split; [| apply calculate_net_forces_frame]].
  - rewrite (calculate_net_forces_unfold (snd _)).
    rewrite (outer_loop_reads w) by apply calculate_net_forces_frame.
    destruct (calculate_net_forces_frame w) as (_ & -> & _).
    rewrite calculate_net_forces_unfold.
    destruct (GravitySimulation.outer_loop _ _ _); reflexivity.
  - rewrite (calculate_net_forces_unfold (snd _)).
    rewrite (outer_loop_reads w) by apply calculate_net_forces_frame.
    destruct (calculate_net_forces_frame w) as (_ & -> & _).
    rewrite calculate_net_forces_unfold.
    destruct (GravitySimulation.outer_loop _ _ _); reflexivity.
Qed.

(** ** [update] *)

(** C3. While the engine is paused, [update(dt)] returns at once: it
    raises nothing and the whole state, engine and bodies, is the one it was
    called in, for every [dt]. *)
Theorem update_paused_is_noop (w : GravitySimulation.world F) (dt : F) :
  GravitySimulation.paused (GravitySimulation.self w) = true ->
  GravitySimulation.update dt w = (inr tt, w).
Proof.
  intros Hpaused. unfold GravitySimulation.update.
  rewrite Hpaused. reflexivity.
Qed.


End EngineFacts.

(** * Enumerations and [normalize], for any numbers *)

Section ListFacts.

Lemma elem_of_enumerate_from {A : Type} (l : list A) : forall start j (b : A),
  (j, b) ∈ GravitySimulation.enumerate_from start l ->
  (start <= j)%nat /\ l !! (j - start)%nat = Some b.
Proof.
  induction l as [| a l IH]; intros start j b Hin; cbn in Hin.
  - apply elem_of_nil in Hin. contradiction.
  - apply elem_of_cons in Hin as [Heq | Hin].
    + inversion Heq; subst. split; [lia |].
      replace (start - start)%nat with 0%nat by lia. reflexivity.
    + apply IH in Hin as [Hle Hlook]. split; [lia |].
      replace (j - start)%nat with (S (j - S start)) by lia. exact Hlook.
Qed.

Lemma elem_of_enumerate {A : Type} (l : list A) j (b : A) :
  (j, b) ∈ GravitySimulation.enumerate l -> l !! j = Some b.
Proof.
  intros Hin. apply elem_of_enumerate_from in Hin as [_ Hlook].
  replace (j - 0)%nat with j in Hlook by lia. exact Hlook.
Qed.

Lemma enumerate_from_snd {A : Type} (l : list A) : forall start,
  map snd (GravitySimulation.enumerate_from start l) = l.
Proof.
  induction l as [| a l IH]; intros start; cbn; [reflexivity |].
  rewrite IH. reflexivity.
Qed.





End ListFacts.

(** * Binary64 results: signs, zeros and the smallest square root

    The facts about floats the claims need, from the specification of the
    primitive operations ([FloatAxioms]): a square and a sum of squares are
    not below zero, a sum with a term above zero is above zero, and a square
    root that is not zero is at least [2^-537], so that its square is not
    zero.  None of them depends on the last digit of a result. *)

Section Binary64Facts.
Import Binary64.

Lemma digits2_pos_size (p : positive) : SpecFloat.digits2_pos p = Pos.size p.
Proof. induction p; cbn; congruence. Qed.

Lemma Zdigits2_log2 (m : Z) : 0 < m -> SpecFloat.Zdigits2 m = Z.log2 m + 1.
Proof.
  destruct m as [| p | p]; try lia. intros _.
  cbn [SpecFloat.Zdigits2]. rewrite digits2_pos_size.
  destruct p; cbn [Z.log2 Pos.size]; lia.
Qed.

Lemma shr_1_m (mrs : SpecFloat.shr_record) :
  0 <= SpecFloat.shr_m mrs ->
  SpecFloat.shr_m (SpecFloat.shr_1 mrs) = Z.shiftr (SpecFloat.shr_m mrs) 1.
Proof.
  destruct mrs as [m r s]. cbn [SpecFloat.shr_m]. intros Hm.
  rewrite <- Z.div2_spec.
  destruct m as [| [p | p |] | p]; try lia; reflexivity.
Qed.

Lemma iter_shr_1_m (p : positive) : forall mrs,
  0 <= SpecFloat.shr_m mrs ->
  SpecFloat.shr_m (SpecFloat.iter_pos SpecFloat.shr_1 p mrs)
  = Z.shiftr (SpecFloat.shr_m mrs) (Z.pos p).
Proof.
  induction p as [p IH | p IH |]; intros mrs Hm; cbn [SpecFloat.iter_pos].
  - pose proof (shr_1_m mrs Hm) as H1.
    assert (H1' : 0 <= SpecFloat.shr_m (SpecFloat.shr_1 mrs))
      by (rewrite H1; apply Z.shiftr_nonneg; exact Hm).
    pose proof (IH _ H1') as H2.
    assert (H2' : 0 <= SpecFloat.shr_m
                         (SpecFloat.iter_pos SpecFloat.shr_1 p (SpecFloat.shr_1 mrs)))
      by (rewrite H2; apply Z.shiftr_nonneg; exact H1').
    rewrite (IH _ H2'), H2, H1, !Z.shiftr_shiftr by lia.
    f_equal. lia.
  - pose proof (IH _ Hm) as H2.
    assert (H2' : 0 <= SpecFloat.shr_m (SpecFloat.iter_pos SpecFloat.shr_1 p mrs))
      by (rewrite H2; apply Z.shiftr_nonneg; exact Hm).
    rewrite (IH _ H2'), H2, !Z.shiftr_shiftr by lia.
    f_equal. lia.
  - apply shr_1_m, Hm.
Qed.

Lemma fexp_eq (e : Z) :
  SpecFloat.fexp FloatOps.prec FloatOps.emax e = Z.max (e - 53) (-1074).
Proof. reflexivity. Qed.

Lemma shr_record_of_loc_m (m : Z) (l : SpecFloat.location) :
  SpecFloat.shr_m (SpecFloat.shr_record_of_loc m l) = m.
Proof. destruct l as [| []]; reflexivity. Qed.

(** One shift to the exponent of the format keeps a positive mantissa
    positive and its leading digit where it is, when that digit is above
    the smallest exponent. *)
Lemma shr_fexp_pos (m e : Z) (l : SpecFloat.location) :
  0 < m -> -1073 <= SpecFloat.Zdigits2 m + e ->
  0 < SpecFloat.shr_m (fst (SpecFloat.shr_fexp FloatOps.prec FloatOps.emax m e l)) /\
  SpecFloat.Zdigits2
    (SpecFloat.shr_m (fst (SpecFloat.shr_fexp FloatOps.prec FloatOps.emax m e l)))
  + snd (SpecFloat.shr_fexp FloatOps.prec FloatOps.emax m e l)
  = SpecFloat.Zdigits2 m + e.
Proof.
  intros Hm HD. unfold SpecFloat.shr_fexp, SpecFloat.shr. rewrite fexp_eq.
  rewrite (Zdigits2_log2 m Hm) in *.
  pose proof (Z.log2_nonneg m) as Hlog.
  destruct (Z.max (Z.log2 m + 1 + e - 53) (-1074) - e) as [| p | p] eqn:Hn;
    cbn [fst snd]; rewrite ?shr_record_of_loc_m.
  - rewrite (Zdigits2_log2 m Hm). lia.
  - rewrite iter_shr_1_m by (rewrite shr_record_of_loc_m; lia).
    rewrite shr_record_of_loc_m.
    assert (Hp : Z.pos p <= Z.log2 m) by lia.
    assert (Hpos : 0 < Z.shiftr m (Z.pos p)).
    { pose proof (Z.shiftr_nonneg m (Z.pos p)) as Hnn.
      destruct (Z.eq_dec (Z.shiftr m (Z.pos p)) 0) as [Hz | Hz]; [| lia].
      apply Z.shiftr_eq_0_iff in Hz. lia. }
    split; [exact Hpos |].
    rewrite (Zdigits2_log2 _ Hpos), Z.log2_shiftr by exact Hm. lia.
  - rewrite (Zdigits2_log2 m Hm). lia.
Qed.

Lemma round_nearest_even_bounds (m : Z) (l : SpecFloat.location) :
  m <= SpecFloat.round_nearest_even m l <= m + 1.
Proof.
  unfold SpecFloat.round_nearest_even.
  destruct l as [| []]; try destruct (Z.even m); lia.
Qed.

(** Rounding a positive mantissa whose leading digit is above the smallest
    exponent never gives zero: the result is finite, its leading digit at
    least as high, or it is infinite; its sign is the sign given. *)
Lemma binary_round_aux_pos (sx : bool) (mx ex : Z) (lx : SpecFloat.location) :
  0 < mx -> -1073 <= SpecFloat.Zdigits2 mx + ex ->
  (exists m e,
     SpecFloat.binary_round_aux FloatOps.prec FloatOps.emax sx mx ex lx
     = SpecFloat.S754_finite sx m e /\
     SpecFloat.Zdigits2 mx + ex <= SpecFloat.Zdigits2 (Z.pos m) + e)
  \/ SpecFloat.binary_round_aux FloatOps.prec FloatOps.emax sx mx ex lx
     = SpecFloat.S754_infinity sx.
Proof.
  intros Hm HD. unfold SpecFloat.binary_round_aux.
  destruct (shr_fexp_pos mx ex lx Hm HD) as (H1 & H2).
  destruct (SpecFloat.shr_fexp FloatOps.prec FloatOps.emax mx ex lx) as [mrs' e'].
  cbn [fst snd] in H1, H2.
  set (m2 := SpecFloat.round_nearest_even (SpecFloat.shr_m mrs')
               (SpecFloat.loc_of_shr_record mrs')).
  pose proof (round_nearest_even_bounds (SpecFloat.shr_m mrs')
                (SpecFloat.loc_of_shr_record mrs')) as Hr. fold m2 in Hr.
  assert (Hm2 : 0 < m2) by lia.
  assert (HD2 : SpecFloat.Zdigits2 mx + ex <= SpecFloat.Zdigits2 m2 + e').
  { rewrite <- H2, (Zdigits2_log2 _ H1), (Zdigits2_log2 _ Hm2).
    pose proof (Z.log2_le_mono (SpecFloat.shr_m mrs') m2). lia. }
  destruct (shr_fexp_pos m2 e' SpecFloat.loc_Exact Hm2 ltac:(lia)) as (K1 & K2).
  destruct (SpecFloat.shr_fexp FloatOps.prec FloatOps.emax m2 e' SpecFloat.loc_Exact)
    as [mrs'' e''].
  cbn [fst snd] in K1, K2.
  destruct (SpecFloat.shr_m mrs'') as [| m | m] eqn:Hm3; try lia.
  destruct (e'' <=? FloatOps.emax - FloatOps.prec).
  - left. exists m, e''. split; [reflexivity | lia].
  - right. reflexivity.
Qed.

Lemma valid_finite_position (s : bool) (m : positive) (e : Z) :
  SpecFloat.valid_binary FloatOps.prec FloatOps.emax (SpecFloat.S754_finite s m e) = true ->
  -1073 <= SpecFloat.Zdigits2 (Z.pos m) + e.
Proof.
  cbn [SpecFloat.valid_binary]. unfold SpecFloat.bounded, SpecFloat.canonical_mantissa.
  rewrite fexp_eq. intros Hv. apply andb_true_iff in Hv as [Hc _].
  apply Z.eqb_eq in Hc. cbn [SpecFloat.Zdigits2]. lia.
Qed.

(** The integer square root the float square root starts from has its
    leading digit at half the position of the radicand's. *)
Lemma sqrt_core_position (m : positive) (e : Z) :
  -1073 <= SpecFloat.Zdigits2 (Z.pos m) + e ->
  0 < fst (fst (SpecFloat.SFsqrt_core_binary FloatOps.prec FloatOps.emax (Z.pos m) e)) /\
  -536 <= SpecFloat.Zdigits2
            (fst (fst (SpecFloat.SFsqrt_core_binary FloatOps.prec FloatOps.emax (Z.pos m) e)))
          + snd (fst (SpecFloat.SFsqrt_core_binary FloatOps.prec FloatOps.emax (Z.pos m) e)).
Proof.
  intros HD. unfold SpecFloat.SFsqrt_core_binary.
  rewrite (Zdigits2_log2 (Z.pos m)) in * by lia.
  set (d := Z.log2 (Z.pos m) + 1) in *.
  set (e' := Z.min (SpecFloat.fexp FloatOps.prec FloatOps.emax (Z.div2 (d + e + 1)))
                   (Z.div2 e)).
  assert (He' : 2 * e' <= e).
  { pose proof (Z.div2_odd e) as Ho.
    assert (Hb : 0 <= Z.b2z (Z.odd e)) by (destruct (Z.odd e); cbn; lia).
    subst e'. lia. }
  set (N := match e - 2 * e' with
            | 0 => Z.pos m
            | Z.pos _ => Z.shiftl (Z.pos m) (e - 2 * e')
            | Z.neg _ => 0
            end).
  assert (HN : N = Z.pos m * 2 ^ (e - 2 * e')).
  { subst N. destruct (e - 2 * e') as [| p | p] eqn:Hs; try lia.
    rewrite Z.shiftl_mul_pow2 by lia. reflexivity. }
  assert (HNpos : 0 < N)
    by (rewrite HN; apply Z.mul_pos_pos; [lia | apply Z.pow_pos_nonneg; lia]).
  assert (HlogN : Z.log2 N = e - 2 * e' + Z.log2 (Z.pos m)).
  { rewrite HN. apply Z.log2_mul_pow2; lia. }
  pose proof (Z.sqrtrem_sqrt N) as Hq.
  destruct (Z.sqrtrem N) as [q r]. cbn [fst] in Hq. subst q. cbn [fst snd].
  assert (Hqpos : 0 < Z.sqrt N) by (apply Z.sqrt_pos; exact HNpos).
  split; [exact Hqpos |].
  rewrite (Zdigits2_log2 _ Hqpos).
  pose proof (Z.sqrt_spec N ltac:(lia)) as [_ Hup].
  pose proof (Z.log2_spec N HNpos) as [HlowN _].
  pose proof (Z.log2_spec (Z.sqrt N) Hqpos) as [_ Hupq].
  pose proof (Z.log2_nonneg (Z.sqrt N)) as Hlq.
  assert (Hlt : 2 ^ Z.log2 N < 2 ^ (2 * Z.log2 (Z.sqrt N) + 2)).
  { replace (2 * Z.log2 (Z.sqrt N) + 2)
      with (Z.succ (Z.log2 (Z.sqrt N)) + Z.succ (Z.log2 (Z.sqrt N))) by lia.
    rewrite Z.pow_add_r by lia.
    unfold Z.succ in *. nia. }
  apply Z.pow_lt_mono_r_iff in Hlt; lia.
Qed.

Lemma eqb_zero_spec (a : PrimFloat.float) :
  PrimFloat.eqb a PrimFloat.zero = is_zero_sf (FloatOps.Prim2SF a).
Proof.
  rewrite FloatAxioms.eqb_spec.
  change (FloatOps.Prim2SF PrimFloat.zero) with (SpecFloat.S754_zero false).
  destruct (FloatOps.Prim2SF a) as [s | s | | s m e]; try destruct s; reflexivity.
Qed.

Lemma ltb_zero_spec (a : PrimFloat.float) :
  PrimFloat.ltb a PrimFloat.zero = negb (not_negative_sf (FloatOps.Prim2SF a)).
Proof.
  rewrite FloatAxioms.ltb_spec.
  change (FloatOps.Prim2SF PrimFloat.zero) with (SpecFloat.S754_zero false).
  destruct (FloatOps.Prim2SF a) as [s | s | | s m e]; try destruct s; reflexivity.
Qed.




Lemma binary_round_aux_sign (mx ex : Z) (lx : SpecFloat.location) :
  not_negative_sf (SpecFloat.binary_round_aux FloatOps.prec FloatOps.emax false mx ex lx)
  = true.
Proof.
  unfold SpecFloat.binary_round_aux.
  destruct (SpecFloat.shr_fexp _ _ mx ex lx) as [mrs' e'].
  destruct (SpecFloat.shr_fexp _ _ _ e' _) as [mrs'' e''].
  destruct (SpecFloat.shr_m mrs''); [reflexivity | | reflexivity].
  destruct (e'' <=? FloatOps.emax - FloatOps.prec); reflexivity.
Qed.

Lemma binary_round_sign (m : positive) (e : Z) :
  not_negative_sf (SpecFloat.binary_round FloatOps.prec FloatOps.emax false m e) = true.
Proof.
  unfold SpecFloat.binary_round.
  destruct (SpecFloat.shl_align _ _ _) as [mz ez]. apply binary_round_aux_sign.
Qed.

(** A product of a float with itself is not below zero. *)
Lemma mul_self_not_negative (a : PrimFloat.float) :
  not_negative_sf (FloatOps.Prim2SF (PrimFloat.mul a a)) = true.
Proof.
  rewrite FloatAxioms.mul_spec. unfold FloatAxioms.SF64mul.
  destruct (FloatOps.Prim2SF a) as [s | s | | s m e]; cbn [SpecFloat.SFmul].
  - destruct s; reflexivity.
  - destruct s; reflexivity.
  - reflexivity.
  - replace (xorb s s) with false by (destruct s; reflexivity).
    apply binary_round_aux_sign.
Qed.

Lemma SFadd_not_negative (a b : SpecFloat.spec_float) :
  not_negative_sf a = true -> not_negative_sf b = true ->
  not_negative_sf (SpecFloat.SFadd FloatOps.prec FloatOps.emax a b) = true.
Proof.
  destruct a as [sx | sx | | sx mx ex], b as [sy | sy | | sy my ey];
    cbn [not_negative_sf SpecFloat.SFadd]; intros Hx Hy;
    try (destruct sx; try discriminate Hx);
    try (destruct sy; try discriminate Hy);
    try reflexivity.
  cbn [SpecFloat.cond_Zopp Z.add SpecFloat.binary_normalize].
  apply binary_round_sign.
Qed.

(** A sum of floats that are not below zero is not below zero. *)
Lemma add_not_negative (a b : PrimFloat.float) :
  not_negative_sf (FloatOps.Prim2SF a) = true ->
  not_negative_sf (FloatOps.Prim2SF b) = true ->
  not_negative_sf (FloatOps.Prim2SF (PrimFloat.add a b)) = true.
Proof. rewrite FloatAxioms.add_spec. apply SFadd_not_negative. Qed.

Lemma SFsqrt_result (a : SpecFloat.spec_float) :
  SpecFloat.valid_binary FloatOps.prec FloatOps.emax a = true ->
  root_sized_sf (SpecFloat.SFsqrt FloatOps.prec FloatOps.emax a) /\
  not_negative_sf (SpecFloat.SFsqrt FloatOps.prec FloatOps.emax a) = true /\
  (above_zero_sf a = true ->
   above_zero_sf (SpecFloat.SFsqrt FloatOps.prec FloatOps.emax a) = true).
Proof.
  intros Hv. destruct a as [s | s | | s m e]; cbn [SpecFloat.SFsqrt].
  - cbn. auto.
  - destruct s; cbn; auto.
  - cbn. auto.
  - destruct s; [cbn; auto |].
    pose proof (valid_finite_position _ _ _ Hv) as HD.
    destruct (sqrt_core_position m e HD) as [Hq Hpos].
    destruct (SpecFloat.SFsqrt_core_binary _ _ (Z.pos m) e) as [[q e'] l].
    cbn [fst snd] in Hq, Hpos.
    destruct (binary_round_aux_pos false q e' l Hq ltac:(lia))
      as [(mr & er & -> & Hr) | ->];
      cbn [root_sized_sf not_negative_sf above_zero_sf negb]; auto.
    split; [lia | auto].
Qed.

Lemma SFmul_self_not_zero (a : SpecFloat.spec_float) :
  root_sized_sf a -> is_zero_sf a = false ->
  is_zero_sf (SpecFloat.SFmul FloatOps.prec FloatOps.emax a a) = false.
Proof.
  destruct a as [s | s | | s m e]; cbn [SpecFloat.SFmul root_sized_sf is_zero_sf];
    intros Hsize Hz; try discriminate Hz; try reflexivity.
  assert (Hpos : -1073 <= SpecFloat.Zdigits2 (Z.pos (m * m)) + (e + e)).
  { rewrite (Zdigits2_log2 (Z.pos m)) in Hsize by lia.
    rewrite (Zdigits2_log2 (Z.pos (m * m))) by lia.
    pose proof (Z.log2_mul_below (Z.pos m) (Z.pos m) ltac:(lia) ltac:(lia)) as Hlog.
    rewrite Pos2Z.inj_mul. lia. }
  destruct (binary_round_aux_pos (xorb s s) (Z.pos (m * m)) (e + e) SpecFloat.loc_Exact
              ltac:(lia) Hpos) as [(mr & er & -> & _) | ->]; reflexivity.
Qed.

(** The float fact next to the guard [distance_r == 0]: the square of a
    square root that is not zero is not zero. *)
Lemma sqrt_square_not_zero (a : PrimFloat.float) :
  PrimFloat.eqb (PrimFloat.sqrt a) PrimFloat.zero = false ->
  PrimFloat.eqb (PrimFloat.mul (PrimFloat.sqrt a) (PrimFloat.sqrt a)) PrimFloat.zero
  = false.
Proof.
  rewrite !eqb_zero_spec, FloatAxioms.mul_spec, FloatAxioms.sqrt_spec.
  intros Hz.
  destruct (SFsqrt_result _ (FloatAxioms.Prim2SF_valid a)) as (Hsize & _ & _).
  apply SFmul_self_not_zero; assumption.
Qed.








End Binary64Facts.

(** * [normalize] and the pair computation on binary64 floats *)

Section FloatFacts.
Import FloatNum.
Import Binary64.

Ltac float_ops :=
  cbn [num0 num1 nadd nsub nmul nquot neqb nleb nsquare nroot nsqrt float_num
       bind ret raise].

(** [a ** 2] raises [OverflowError] or is the product. *)
Lemma fsquare_cases (a : PrimFloat.float) :
  fsquare a = inl OverflowError \/ fsquare a = inr (PrimFloat.mul a a).
Proof.
  unfold fsquare.
  destruct (is_finite a && PrimFloat.is_infinity (PrimFloat.mul a a)); auto.
Qed.

Lemma fsquare_not_negative (a r : PrimFloat.float) :
  fsquare a = inr r -> not_negative_sf (FloatOps.Prim2SF r) = true.
Proof.
  destruct (fsquare_cases a) as [Hc | Hc]; rewrite Hc; intros Heq;
    inversion Heq; subst. apply mul_self_not_negative.
Qed.





(** ** The pair computation of [calculate_net_forces] *)


(** On floats the pair computation never divides by zero; it raises the
    [OverflowError] of a square, or, with a softening below zero, the
    [TypeError] of a root that is not a float. *)
Lemma force_vec_float_error (G eps : PrimFloat.float)
    (a b : CelestialBody.t PrimFloat.float) (e : exn) :
  GravitySimulation.force_vec G eps a b = inl e ->
  e = OverflowError \/ (e = TypeError /\ PrimFloat.ltb eps PrimFloat.zero = true).
Proof.
  unfold GravitySimulation.force_vec. cbv zeta.
  set (d := Vector2D.sub (CelestialBody.position b) (CelestialBody.position a)).
  float_ops.
  destruct (fsquare (Vector2D.x d)) as [e1 | dx2] eqn:Hx; cbn [bind].
  { destruct (fsquare_cases (Vector2D.x d)) as [Hc | Hc]; left; congruence. }
  destruct (fsquare (Vector2D.y d)) as [e2 | dy2] eqn:Hy; cbn [bind].
  { destruct (fsquare_cases (Vector2D.y d)) as [Hc | Hc]; left; congruence. }
  pose proof (add_not_negative _ _ (fsquare_not_negative _ _ Hx)
                (fsquare_not_negative _ _ Hy)) as Hsum.
  set (s := PrimFloat.add (PrimFloat.add dx2 dy2) eps).
  assert (Hafter : forall r,
            r = PrimFloat.infinity \/ r = PrimFloat.sqrt s ->
            (let* fd :=
               (if PrimFloat.eqb r PrimFloat.zero
                then ret (PrimFloat.zero, Vector2D.mk PrimFloat.zero PrimFloat.zero)
                else
                  let* r2 := fsquare r in
                  let* force_magnitude :=
                    ndiv (PrimFloat.mul (PrimFloat.mul G (CelestialBody.mass a))
                            (CelestialBody.mass b)) r2 in
                  let* ux := ndiv (Vector2D.x d) r in
                  let* uy := ndiv (Vector2D.y d) r in
                  ret (force_magnitude, Vector2D.mk ux uy)) in
             ret (Vector2D.mul (snd fd) (fst fd))) = inl e ->
            e = OverflowError).
  { intros r Hr.
    destruct (PrimFloat.eqb r PrimFloat.zero) eqn:Hz; cbn [bind ret]; [discriminate |].
    assert (Hr2 : PrimFloat.eqb (PrimFloat.mul r r) PrimFloat.zero = false).
    { destruct Hr as [-> | ->]; [reflexivity | apply sqrt_square_not_zero, Hz]. }
    destruct (fsquare_cases r) as [Hc | Hc]; rewrite Hc; cbn [bind]; [congruence |].
    unfold ndiv. float_ops. rewrite Hr2, Hz. cbn [bind ret]. discriminate. }
  unfold froot. fold s.
  destruct (PrimFloat.ltb s PrimFloat.zero) eqn:Hneg.
  - assert (Heps : PrimFloat.ltb eps PrimFloat.zero = true).
    { rewrite ltb_zero_spec in *.
      destruct (not_negative_sf (FloatOps.Prim2SF eps)) eqn:Hnn; [| reflexivity].
      subst s. rewrite (add_not_negative _ _ Hsum Hnn) in Hneg. discriminate Hneg. }
    destruct (PrimFloat.is_infinity s); cbn [bind ret raise].
    + intros Hrun. left. apply (Hafter PrimFloat.infinity); [left; reflexivity | exact Hrun].
    + intros Hrun. right. split; [congruence | exact Heps].
  - cbn [bind ret]. intros Hrun. left.
    apply (Hafter (PrimFloat.sqrt s)); [right; reflexivity | exact Hrun].
Qed.



End FloatFacts.

(** * [calculate_net_forces]: what it returns and what it raises *)

Section NetForceFacts.
Import FloatNum.

Section Loops.
Context {F : Type} `{PyNum F}.
Variable w : GravitySimulation.world F.


Let raises (e : exn) : Prop :=
  exists a b,
    GravitySimulation.force_vec
      (GravitySimulation.gravitational_constant (GravitySimulation.self w))
      (GravitySimulation.epsilon (GravitySimulation.self w))
      (GravitySimulation.heap w a) (GravitySimulation.heap w b) = inl e.


(** The loops raise only what a pair computation raises. *)
Lemma inner_loop_error i (body_a : GravitySimulation.addr) js :
  forall net e,
  GravitySimulation.inner_loop w i body_a js net = inl e -> raises e.
Proof.
  induction js as [| [j b] js IH]; intros net e Hrun; [discriminate Hrun |].
  cbn [GravitySimulation.inner_loop] in Hrun.
  destruct (decide (i = j)); [apply (IH _ _ Hrun) |].
  destruct (GravitySimulation.force_vec _ _ _ _) as [e0 | fv] eqn:Hfv;
    cbn [bind] in Hrun.
  - inversion Hrun; subst. exists body_a, b. exact Hfv.
  - apply (IH _ _ Hrun).
Qed.

Lemma outer_loop_error ias :
  forall current_forces e,
  GravitySimulation.outer_loop w ias current_forces = inl e -> raises e.
Proof.
  induction ias as [| [i body_a] ias IH]; intros current_forces e Hrun;
    [discriminate Hrun |].
  cbn [GravitySimulation.outer_loop] in Hrun.
  destruct (GravitySimulation.inner_loop _ _ _ _ _) as [e0 | net] eqn:Hin;
    cbn [bind] in Hrun.
  - inversion Hrun; subst. apply (inner_loop_error _ _ _ _ _ Hin).
  - apply (IH _ _ Hrun).
Qed.



Lemma calculate_net_forces_error e w' :
  GravitySimulation.calculate_net_forces w = (inl e, w') -> w' = w /\ raises e.
Proof.
  rewrite calculate_net_forces_unfold.
  destruct (GravitySimulation.outer_loop _ _ _) as [e0 | fs] eqn:Hrun;
    intros Heq; [| discriminate Heq].
  injection Heq as He Hw. rewrite <- He, <- Hw.
  split; [reflexivity | apply (outer_loop_error _ _ _ Hrun)].
Qed.

End Loops.

(** On floats a call that raises changes nothing and raises what a pair
    computation raises: never [ZeroDivisionError], and nothing but
    [OverflowError] when the softening is not below zero. *)
Lemma calculate_net_forces_float_error (w w' : GravitySimulation.world PrimFloat.float)
    (e : exn) :
  GravitySimulation.calculate_net_forces w = (inl e, w') ->
  w' = w /\
  e <> ZeroDivisionError /\
  (PrimFloat.ltb (GravitySimulation.epsilon (GravitySimulation.self w)) PrimFloat.zero
   = false ->
   e = OverflowError).
Proof.
  intros Hrun.
  destruct (calculate_net_forces_error w e w' Hrun) as (Hsame & a & b & Hpair).
  split; [exact Hsame |].
  destruct (force_vec_float_error _ _ _ _ _ Hpair) as [-> | [-> Hneg]].
  - split; [discriminate | reflexivity].
  - split; [discriminate | congruence].
Qed.


End NetForceFacts.

(** * The background stepper, for any numbers *)

Section StepperFacts.
Context {F : Type} `{PyNum F}.

(** C4, as the code has it.  When the engine is running and its [update]
    raises, the exception leaves the coroutine: the loop neither logs it nor
    goes on to another tick, whatever events would have followed.  The
    [try] of the loop wraps the sleep only. *)
Theorem tick_exception_ends_loop
    (s : Tasks.state (F := F)) (e : exn) (w' : GravitySimulation.world F)
    (trace : list Tasks.sleep_event) :
  Tasks._simulation_task_should_stop s = false ->
  GravitySimulation.paused (GravitySimulation.self (Tasks.simulation s)) = false ->
  GravitySimulation.update
    (GravitySimulation.time_step_display (GravitySimulation.self (Tasks.simulation s)))
    (Tasks.simulation s)
  = (inl e, w') ->
  Tasks._run_simulation_update_loop trace s
  = Tasks.Raised e
      (Tasks.State w' false
         (Tasks.logger s ++ [Tasks.Info "Background simulation update loop starting..."])).
Proof.
  intros Hstop Hrun Hraise.
  unfold Tasks._run_simulation_update_loop.
  destruct trace as [| ev trace];
    cbn [Tasks.while_loop]; unfold Tasks.tick, Tasks.log;
    cbn [Tasks.simulation Tasks._simulation_task_should_stop Tasks.logger];
    rewrite Hstop, Hrun; cbn [negb]; rewrite Hraise; reflexivity.
Qed.

End StepperFacts.

(** * The theorems at the concrete inputs *)

Section Instances.
Import FloatNum.
Import PrimFloat.

(** C3 at a paused engine with two bodies and a negative step. *)
Lemma update_paused_is_noop_witness :
  GravitySimulation.paused (GravitySimulation.self Sample.world_paused) = true /\
  GravitySimulation.update (-1)%float Sample.world_paused
  = (inr tt, Sample.world_paused).
Proof.
  split; [reflexivity |].
  apply update_paused_is_noop. reflexivity.
Defined.


(** C5 at a body whose [max_trail_length] is 0: the trail is empty after
    the call, so it has no newest entry. *)
Lemma trail_newest_entry_counterexample :
  Z.of_nat (length (CelestialBody.trail Sample.body_no_trail))
  <= CelestialBody.max_trail_length Sample.body_no_trail /\
  CelestialBody.trail (Describe.run_update_position Sample.body_no_trail [1%float]) = [] /\
  last (CelestialBody.trail (Describe.run_update_position Sample.body_no_trail [1%float]))
  <> Some (CelestialBody.position
             (Describe.run_update_position Sample.body_no_trail [1%float])).
Proof.
  split; [cbn; lia |]. split; [reflexivity |].
  vm_compute. discriminate.
Qed.

(** C5, amended, at a body with the default bound, after two calls. *)
Lemma trail_is_recent_history_witness :
  Z.of_nat (length (CelestialBody.trail Sample.body_far))
  <= CelestialBody.max_trail_length Sample.body_far /\
  last (CelestialBody.trail
          (Describe.run_update_position Sample.body_far [1%float; 1%float]))
  = Some (CelestialBody.position
            (Describe.run_update_position Sample.body_far [1%float; 1%float])).
Proof.
  assert (Hlen : Z.of_nat (length (CelestialBody.trail Sample.body_far))
                 <= CelestialBody.max_trail_length Sample.body_far)
    by (cbn; lia).
  split; [exact Hlen |].
  apply (trail_is_recent_history Sample.body_far [1%float; 1%float] Hlen).
  - cbn; lia.
  - discriminate.
Defined.

(** C4 at the engine a request has given a body at (2^700, 0): the next
    tick raises [OverflowError] and the coroutine is over. *)
Lemma tick_exception_ends_loop_witness :
  Tasks._simulation_task_should_stop Sample.stepper0 = false /\
  GravitySimulation.paused (GravitySimulation.self (Tasks.simulation Sample.stepper0))
  = false /\
  forall trace,
    Tasks._run_simulation_update_loop trace Sample.stepper0
    = Tasks.Raised OverflowError
        (Tasks.State Sample.world_far false
           [Tasks.Info "Background simulation update loop starting..."]).
Proof.
  split; [reflexivity |]. split; [reflexivity |].
  intros trace.
  apply (tick_exception_ends_loop Sample.stepper0 OverflowError Sample.world_far trace);
    reflexivity.
Defined.

End Instances.

Section FloatInstances.
Import FloatNum.
Import PrimFloat.





End FloatInstances.

(** * More about the engine, for any numbers *)

Section EngineMore.
Context {F : Type} `{PyNum F}.

(** A pass keeps every attribute its rewriting keeps. *)
Lemma sweep_keeps {A : Type} (proj : CelestialBody.t F -> A) g
    (l : list GravitySimulation.addr) :
  (forall a b, proj (g a b) = proj b) ->
  forall (w : GravitySimulation.world F) (a : GravitySimulation.addr),
  proj (GravitySimulation.heap (Describe.sweep g l w) a)
  = proj (GravitySimulation.heap w a).
Proof.
  intros Hg. induction l as [| a0 l IH]; intros w a; [reflexivity |].
  rewrite sweep_cons, IH.
  destruct (decide (a = a0)) as [-> | Hne].
  - rewrite set_body_same. apply Hg.
  - rewrite set_body_other by exact Hne. reflexivity.
Qed.

Lemma update_position_keeps {A : Type} (proj : CelestialBody.t F -> A)
    (b : CelestialBody.t F) (dt : F) :
  (forall b p, proj (CelestialBody.set_position p b) = proj b) ->
  (forall b tr, proj (CelestialBody.set_trail tr b) = proj b) ->
  proj (CelestialBody.update_position b dt) = proj b.
Proof.
  intros Hp Ht. unfold CelestialBody.update_position. cbv zeta.
  match goal with |- context [if ?c then _ else _] => destruct c end;
    rewrite ?Ht, ?Hp; reflexivity.
Qed.

(** A pass rewrites an object once for every time the list names it. *)
Lemma sweep_count g (l : list GravitySimulation.addr) (a : GravitySimulation.addr) :
  forall w : GravitySimulation.world F,
  GravitySimulation.heap (Describe.sweep g l w) a
  = Nat.iter (count_occ Nat.eq_dec l a) (g a) (GravitySimulation.heap w a).
Proof.
  induction l as [| a0 l IH]; intros w; [reflexivity |].
  rewrite sweep_cons, IH. cbn [count_occ].
  destruct (Nat.eq_dec a0 a) as [-> | Hne].
  - rewrite set_body_same. symmetry. apply Nat.iter_succ_r.
  - rewrite set_body_other by congruence. reflexivity.
Qed.

(** [update] on a running engine, with the monad unfolded. *)
Lemma update_unfold (w : GravitySimulation.world F) (dt : F) :
  GravitySimulation.paused (GravitySimulation.self w) = false ->
  GravitySimulation.update dt w
  = match GravitySimulation.calculate_net_forces w with
    | (inl e, w1) => (inl e, w1)
    | (inr forces, w1) =>
        (inr tt,
         Describe.update_positions dt (GravitySimulation.bodies (GravitySimulation.self w))
           (Describe.apply_forces forces dt
              (GravitySimulation.bodies (GravitySimulation.self w)) w1))
    end.
Proof.
  intros Hrun.
  pose proof (calculate_net_forces_frame w) as Hframe. cbv zeta in Hframe.
  unfold GravitySimulation.update. rewrite Hrun.
  unfold GravitySimulation.mbind, GravitySimulation.read.
  destruct (GravitySimulation.calculate_net_forces w) as [[e | forces] w1];
    [reflexivity |].
  cbn [snd] in Hframe. destruct Hframe as (_ & Hbodies & _).
  rewrite Hbodies, for_each_apply_force. cbv beta iota.
  unfold Describe.apply_forces at 1. rewrite sweep_self, Hbodies.
  apply for_each_update_position.
Qed.

Lemma outer_loop_keys (w : GravitySimulation.world F) ias :
  forall current_forces forces,
  GravitySimulation.outer_loop w ias current_forces = inr forces ->
  forall a, is_Some (forces !! a) <-> a ∈ map snd ias \/ is_Some (current_forces !! a).
Proof.
  induction ias as [| [i body_a] ias IH]; intros current_forces forces Hrun a.
  - cbn in Hrun. inversion Hrun; subst forces. cbn. split; [tauto |].
    intros [Hin | Hsome]; [apply elem_of_nil in Hin; contradiction | exact Hsome].
  - cbn [GravitySimulation.outer_loop] in Hrun.
    destruct (GravitySimulation.inner_loop _ _ _ _ _) as [e | net]; cbn in Hrun;
      [discriminate Hrun |].
    rewrite (IH _ _ Hrun a). cbn [map snd]. rewrite elem_of_cons.
    destruct (decide (a = body_a)) as [-> | Hne].
    + rewrite lookup_insert_eq. split; [intros _; left; left; reflexivity |].
      intros _. right. eexists; reflexivity.
    + rewrite lookup_insert_ne by congruence. tauto.
Qed.

(** X1. When [calculate_net_forces] returns, the mapping has an entry for
    an object exactly when the engine lists it, and the engine differs from
    before only in [_net_forces], which holds the mapping returned. *)
Theorem net_forces_keys_are_bodies
    (w w' : GravitySimulation.world F) (forces : gmap GravitySimulation.addr (Vector2D.t F)) :
  GravitySimulation.calculate_net_forces w = (inr forces, w') ->
  (forall a, is_Some (forces !! a)
             <-> a ∈ GravitySimulation.bodies (GravitySimulation.self w)) /\
  w' = GravitySimulation.World
         (GravitySimulation.set__net_forces forces (GravitySimulation.self w))
         (GravitySimulation.heap w).
Proof.
  rewrite calculate_net_forces_unfold.
  destruct (GravitySimulation.outer_loop _ _ _) as [e | fs] eqn:Hrun;
    intros Heq; inversion Heq; subst.
  split; [| reflexivity].
  intros a. rewrite (outer_loop_keys _ _ _ _ Hrun a).
  unfold GravitySimulation.enumerate. rewrite enumerate_from_snd.
  rewrite lookup_empty. split; [| tauto].
  intros [Hin | [v Hv]]; [exact Hin | discriminate Hv].
Qed.

(** X2. A step that raises leaves no trace: when [update] raises, the
    state is the one it was called in, [_net_forces] included. *)
Theorem update_failure_changes_nothing
    (w w' : GravitySimulation.world F) (dt : F) (e : exn) :
  GravitySimulation.update dt w = (inl e, w') -> w' = w.
Proof.
  destruct (GravitySimulation.paused (GravitySimulation.self w)) eqn:Hp.
  - unfold GravitySimulation.update. rewrite Hp. intros Heq; discriminate Heq.
  - rewrite (update_unfold w dt Hp), calculate_net_forces_unfold.
    destruct (GravitySimulation.outer_loop _ _ _) as [e0 | fs];
      intros Heq; inversion Heq; reflexivity.
Qed.

(** X3. Whatever happens, [update] leaves the list of bodies, the
    constant, the softening, the pause flag and the step of the engine as
    they were, and every object keeps its id, mass, radius, color and trail
    bound. *)
Theorem update_frame (w : GravitySimulation.world F) (dt : F) :
  let w' := snd (GravitySimulation.update dt w) in
  GravitySimulation.bodies (GravitySimulation.self w')
  = GravitySimulation.bodies (GravitySimulation.self w) /\
  GravitySimulation.gravitational_constant (GravitySimulation.self w')
  = GravitySimulation.gravitational_constant (GravitySimulation.self w) /\
  GravitySimulation.epsilon (GravitySimulation.self w')
  = GravitySimulation.epsilon (GravitySimulation.self w) /\
  GravitySimulation.paused (GravitySimulation.self w')
  = GravitySimulation.paused (GravitySimulation.self w) /\
  GravitySimulation.time_step_display (GravitySimulation.self w')
  = GravitySimulation.time_step_display (GravitySimulation.self w) /\
  forall a,
    CelestialBody.id (GravitySimulation.heap w' a)
    = CelestialBody.id (GravitySimulation.heap w a) /\
    CelestialBody.mass (GravitySimulation.heap w' a)
    = CelestialBody.mass (GravitySimulation.heap w a) /\
    CelestialBody.radius (GravitySimulation.heap w' a)
    = CelestialBody.radius (GravitySimulation.heap w a) /\
    CelestialBody.color (GravitySimulation.heap w' a)
    = CelestialBody.color (GravitySimulation.heap w a) /\
    CelestialBody.max_trail_length (GravitySimulation.heap w' a)
    = CelestialBody.max_trail_length (GravitySimulation.heap w a).
Proof.
  cbv zeta.
  destruct (GravitySimulation.paused (GravitySimulation.self w)) eqn:Hp.
  - unfold GravitySimulation.update. rewrite Hp. cbn [snd].
    rewrite Hp. repeat split.
  - rewrite (update_unfold w dt Hp).
    pose proof (calculate_net_forces_frame w) as Hframe. cbv zeta in Hframe.
    destruct (GravitySimulation.calculate_net_forces w) as [[e | forces] w1];
      cbn [snd] in *; destruct Hframe as (Hheap & Hb & HG & He & Hpa & Ht).
    + rewrite Hheap. repeat split; congruence.
    + unfold Describe.update_positions, Describe.apply_forces.
      rewrite !sweep_self.
      repeat (split; [congruence |]).
      assert (Hupd : forall (A : Type) (proj : CelestialBody.t F -> A),
                 (forall b v, proj (CelestialBody.set_velocity v b) = proj b) ->
                 (forall b p, proj (CelestialBody.set_position p b) = proj b) ->
                 (forall b tr, proj (CelestialBody.set_trail tr b) = proj b) ->
                 forall a,
                 proj (GravitySimulation.heap
                         (Describe.sweep (fun _ b => CelestialBody.update_position b dt)
                            (GravitySimulation.bodies (GravitySimulation.self w))
                            (Describe.sweep
                               (fun a b => Describe.force_applied b
                                             (default Vector2D.zero (forces !! a)) dt)
                               (GravitySimulation.bodies (GravitySimulation.self w)) w1)) a)
                 = proj (GravitySimulation.heap w a)).
      { intros A proj Hv Hpos Htr a.
        rewrite (sweep_keeps proj)
          by (intros; apply update_position_keeps; assumption).
        rewrite (sweep_keeps proj), Hheap; [reflexivity |].
        intros a0 b. unfold Describe.force_applied.
        destruct (neqb (CelestialBody.mass b) num0); [reflexivity | apply Hv]. }
      intros a. repeat split; apply Hupd; reflexivity.
Qed.

(** X4. The engine does not ask whether an object is already listed: a
    step rewrites every object once per listing.  With [n] the number of
    times the list names the object at [a], the step leaves there the body
    that [n] calls of [apply_force] (each with the force stored for [a])
    followed by [n] calls of [update_position] make of the body it found;
    an object the list does not name is left as it was. *)
Theorem update_steps_each_listing
    (w w1 : GravitySimulation.world F) (dt : F)
    (forces : gmap GravitySimulation.addr (Vector2D.t F)) :
  GravitySimulation.paused (GravitySimulation.self w) = false ->
  GravitySimulation.calculate_net_forces w = (inr forces, w1) ->
  forall a,
    let n := count_occ Nat.eq_dec (GravitySimulation.bodies (GravitySimulation.self w)) a in
    GravitySimulation.heap (snd (GravitySimulation.update dt w)) a
    = Nat.iter n (fun b => CelestialBody.update_position b dt)
        (Nat.iter n
           (fun b => Describe.force_applied b (default Vector2D.zero (forces !! a)) dt)
           (GravitySimulation.heap w a)).
Proof.
  intros Hrun Hcalc a. cbv zeta.
  pose proof (calculate_net_forces_frame w) as Hframe. cbv zeta in Hframe.
  rewrite (update_unfold w dt Hrun), Hcalc. rewrite Hcalc in Hframe.
  cbn [snd] in *. destruct Hframe as (Hheap & _).
  unfold Describe.update_positions, Describe.apply_forces.
  rewrite !sweep_count, Hheap. reflexivity.
Qed.

End EngineMore.

(** * More about the trail *)

Section TrailMore.
Context {F : Type} `{PyNum F}.

Lemma update_position_full_trail (b : CelestialBody.t F) (dt : F) :
  CelestialBody.max_trail_length b <= Z.of_nat (length (CelestialBody.trail b)) ->
  CelestialBody.trail (CelestialBody.update_position b dt)
  = drop 1 (CelestialBody.trail b ++ [Describe.moved b dt]).
Proof.
  intros Hfull. unfold CelestialBody.update_position. cbv zeta. cbn.
  rewrite copy_eq. fold (Describe.moved b dt).
  rewrite length_app. cbn [length].
  destruct (Z.gtb_spec (Z.of_nat (length (CelestialBody.trail b) + 1))
              (CelestialBody.max_trail_length b)) as [_ | Hle]; [| lia].
  cbn. apply pop0_drop.
Qed.

(** X10. The bound is enforced by one eviction per call.  A trail that
    is at or over [max_trail_length] (the attribute was lowered, say) loses
    its oldest entry and gains the new position at every call, so its
    length stays what it was: it is never cut back to the bound. *)
Theorem trail_over_bound_keeps_length (b : CelestialBody.t F) (dts : list F) :
  CelestialBody.max_trail_length b <= Z.of_nat (length (CelestialBody.trail b)) ->
  length (CelestialBody.trail (Describe.run_update_position b dts))
  = length (CelestialBody.trail b) /\
  forall dt,
    CelestialBody.trail (CelestialBody.update_position b dt)
    = drop 1 (CelestialBody.trail b ++ [Describe.moved b dt]).
Proof.
  intros Hfull. split; [| intros dt; apply update_position_full_trail, Hfull].
  revert b Hfull. induction dts as [| dt rest IH]; intros b Hfull; [reflexivity |].
  cbn [Describe.run_update_position fold_left].
  fold (Describe.run_update_position (CelestialBody.update_position b dt) rest).
  assert (Hlen : length (CelestialBody.trail (CelestialBody.update_position b dt))
                 = length (CelestialBody.trail b)).
  { rewrite (update_position_full_trail b dt Hfull).
    rewrite length_drop, length_app. cbn [length]. lia. }
  rewrite IH; [exact Hlen |].
  rewrite update_position_max, Hlen. exact Hfull.
Qed.

End TrailMore.

(** * More about the background stepper *)

Section StepperMore.
Context {F : Type} `{PyNum F}.

Lemma while_loop_wake (s s1 : Tasks.state (F := F)) others trace :
  Tasks._simulation_task_should_stop s = false ->
  Tasks.tick s = (inr tt, s1) ->
  Tasks.while_loop (Tasks.Wake others :: trace) s
  = Tasks.while_loop trace (others s1).
Proof.
  intros Hstop Htick. cbn [Tasks.while_loop]. rewrite Hstop, Htick. reflexivity.
Qed.

Lemma while_loop_stopped (s : Tasks.state (F := F)) trace :
  Tasks._simulation_task_should_stop s = true ->
  Tasks.while_loop trace s
  = Tasks.Returned
      (Tasks.log (Tasks.Info "Background simulation update loop has finished.") s).
Proof.
  intros Hstop. destruct trace; cbn [Tasks.while_loop]; rewrite Hstop; reflexivity.
Qed.

(** X11. Stopping is cooperative.  If another task sets the stop flag
    while the coroutine sleeps, or the sleep is cancelled, the coroutine
    steps the engine no more: it returns, whatever events would follow,
    and the engine is as the other tasks left it. *)
Theorem loop_stops_without_another_tick
    (s s1 : Tasks.state (F := F)) (others : Tasks.state (F := F) -> Tasks.state (F := F))
    (trace : list Tasks.sleep_event) :
  Tasks._simulation_task_should_stop s = false ->
  Tasks.tick s = (inr tt, s1) ->
  (Tasks._simulation_task_should_stop (others s1) = true ->
   Tasks.while_loop (Tasks.Wake others :: trace) s
   = Tasks.Returned
       (Tasks.log (Tasks.Info "Background simulation update loop has finished.")
          (others s1))) /\
  exists s',
    Tasks.while_loop (Tasks.Throw CancelledError others :: trace) s = Tasks.Returned s' /\
    Tasks.simulation s' = Tasks.simulation (others s1) /\
    Tasks._simulation_task_should_stop s' = true.
Proof.
  intros Hstop Htick. split.
  - intros Hflag. rewrite (while_loop_wake s s1 others trace Hstop Htick).
    apply while_loop_stopped, Hflag.
  - cbn [Tasks.while_loop]. rewrite Hstop, Htick.
    eexists. split; [reflexivity |]. split; reflexivity.
Qed.

(** X12. What the [try] of the loop does cover: an exception the sleep
    raises, other than a cancellation, is logged, the handler sleeps once
    more, and the loop goes on to the next tick; an exception raised by
    that second sleep leaves the coroutine. *)
Theorem sleep_error_is_logged_and_survived
    (s s1 : Tasks.state (F := F)) (e : exn)
    (others1 others2 : Tasks.state (F := F) -> Tasks.state (F := F))
    (trace : list Tasks.sleep_event) :
  Tasks._simulation_task_should_stop s = false ->
  Tasks.tick s = (inr tt, s1) ->
  e <> CancelledError ->
  let logged := Tasks.log (Tasks.Error "Error in simulation update loop" e) (others1 s1) in
  Tasks.while_loop (Tasks.Throw e others1 :: Tasks.Wake others2 :: trace) s
  = Tasks.while_loop trace (others2 logged) /\
  forall e2,
    Tasks.while_loop (Tasks.Throw e others1 :: Tasks.Throw e2 others2 :: trace) s
    = Tasks.Raised e2 (others2 logged).
Proof.
  intros Hstop Htick He. cbv zeta.
  split; [| intros e2]; cbn [Tasks.while_loop]; rewrite Hstop, Htick;
    destruct e; try reflexivity; contradiction.
Qed.

End StepperMore.

(** * Starting and stopping the stepper *)

Section TaskControlFacts.
Context {F : Type} `{PyNum F}.

(** X15. Starting is idempotent.  After a start the handle holds a task
    that is not done; a second start, made before that task is done, hands
    no further task to the event loop and leaves the handle, the stop flag
    and the engine alone: it only logs. *)
Theorem start_is_idempotent (s : TaskControl.state (F := F)) :
  let s1 := TaskControl.start_simulation_loop_task s in
  let s2 := TaskControl.start_simulation_loop_task s1 in
  TaskControl._simulation_task_handle s1 = Some false /\
  (TaskControl.created s1 <= S (TaskControl.created s))%nat /\
  TaskControl.created s2 = TaskControl.created s1 /\
  TaskControl._simulation_task_handle s2 = TaskControl._simulation_task_handle s1 /\
  Tasks._simulation_task_should_stop (TaskControl.globals s2)
  = Tasks._simulation_task_should_stop (TaskControl.globals s1) /\
  Tasks.simulation (TaskControl.globals s2) = Tasks.simulation (TaskControl.globals s1) /\
  Tasks.logger (TaskControl.globals s2)
  = Tasks.logger (TaskControl.globals s1)
    ++ [Tasks.Info "Simulation update task already running."].
Proof.
  cbv zeta. unfold TaskControl.start_simulation_loop_task.
  destruct (TaskControl._simulation_task_handle s) as [[|] |] eqn:Hh;
    cbn [TaskControl._simulation_task_handle TaskControl.created TaskControl.globals];
    rewrite ?Hh;
    cbn [TaskControl._simulation_task_handle TaskControl.created TaskControl.globals];
    repeat split; try reflexivity; lia.
Qed.

(** X16. A stop is not taken back by a start that comes too early.  While
    the task is not done, [stop] raises the stop flag; a [start] made before
    the task is done sees the task as running and returns without lowering
    the flag or creating a task, so the coroutine returns at its next check
    of the flag and no loop is left. *)
Theorem start_after_stop_does_not_restart
    (s : TaskControl.state (F := F)) (trace : list Tasks.sleep_event) :
  TaskControl._simulation_task_handle s = Some false ->
  let s2 := TaskControl.start_simulation_loop_task (TaskControl.stop_simulation_loop_task s) in
  Tasks._simulation_task_should_stop (TaskControl.globals s2) = true /\
  TaskControl.created s2 = TaskControl.created s /\
  exists final,
    Tasks.while_loop trace (TaskControl.globals s2) = Tasks.Returned final /\
    Tasks.simulation final = Tasks.simulation (TaskControl.globals s).
Proof.
  intros Hh. cbv zeta.
  unfold TaskControl.start_simulation_loop_task, TaskControl.stop_simulation_loop_task.
  rewrite Hh.
  cbn [TaskControl._simulation_task_handle TaskControl.created TaskControl.globals].
  split; [reflexivity |]. split; [reflexivity |].
  eexists. split; [apply while_loop_stopped; reflexivity | reflexivity].
Qed.

End TaskControlFacts.

(** * The handlers of the API *)

Section ApiFacts.
Context {F : Type} `{PyNum F}.

Lemma update_frame_bodies (w : GravitySimulation.world F) (dt : F) :
  GravitySimulation.bodies (GravitySimulation.self (snd (GravitySimulation.update dt w)))
  = GravitySimulation.bodies (GravitySimulation.self w).
Proof.
  destruct (GravitySimulation.paused (GravitySimulation.self w)) eqn:Hp.
  - unfold GravitySimulation.update. rewrite Hp. reflexivity.
  - rewrite (update_unfold w dt Hp).
    pose proof (calculate_net_forces_frame w) as Hframe. cbv zeta in Hframe.
    destruct (GravitySimulation.calculate_net_forces w) as [[e | forces] w1];
      cbn [snd] in *; destruct Hframe as (_ & Hb & _); [exact Hb |].
    unfold Describe.update_positions, Describe.apply_forces.
    rewrite !sweep_self. exact Hb.
Qed.

Lemma update_raises_in_place (w w' : GravitySimulation.world F) (dt : F) (e : exn) :
  GravitySimulation.update dt w = (inl e, w') -> w' = w.
Proof.
  destruct (GravitySimulation.paused (GravitySimulation.self w)) eqn:Hp.
  - unfold GravitySimulation.update. rewrite Hp. intros Heq; discriminate Heq.
  - rewrite (update_unfold w dt Hp), calculate_net_forces_unfold.
    destruct (GravitySimulation.outer_loop _ _ _) as [e0 | fs];
      intros Heq; inversion Heq; reflexivity.
Qed.

(** X17. A single step works on a paused engine too: [step_simulation]
    runs the [update] of the engine with the pause flag lowered, with the
    engine's own [time_step_display], and when that returns it puts the flag
    back as it found it and reports the state it leaves. *)
Theorem step_updates_once_and_restores_pause
    (w w2 : GravitySimulation.world F) :
  let running := Api.set_engine (GravitySimulation.set_paused false) w in
  GravitySimulation.update
    (GravitySimulation.time_step_display (GravitySimulation.self w)) running
  = (inr tt, w2) ->
  exists w3,
    Api.step_simulation w = (inr (Api.status_of w3), w3) /\
    GravitySimulation.heap w3 = GravitySimulation.heap w2 /\
    GravitySimulation.paused (GravitySimulation.self w3)
    = GravitySimulation.paused (GravitySimulation.self w) /\
    GravitySimulation.bodies (GravitySimulation.self w3)
    = GravitySimulation.bodies (GravitySimulation.self w) /\
    GravitySimulation._net_forces (GravitySimulation.self w3)
    = GravitySimulation._net_forces (GravitySimulation.self w2).
Proof.
  cbv zeta. intros Hupd.
  pose proof (update_frame_bodies
                (Api.set_engine (GravitySimulation.set_paused false) w)
                (GravitySimulation.time_step_display (GravitySimulation.self w))) as Hb.
  unfold Api.step_simulation. cbv zeta.
  change (GravitySimulation.time_step_display
            (GravitySimulation.self (Api.set_engine (GravitySimulation.set_paused false) w)))
    with (GravitySimulation.time_step_display (GravitySimulation.self w)).
  rewrite Hupd in *. cbn [snd] in Hb.
  eexists. split; [reflexivity |].
  cbn. repeat split. exact Hb.
Qed.

(** X18. A step that fails leaves the engine running.  When the [update]
    inside [step_simulation] raises, the handler raises the same exception,
    no body has changed, and the pause flag is left lowered, whatever it
    was: the statement that restores it is not reached. *)
Theorem failed_step_leaves_engine_unpaused
    (w w2 : GravitySimulation.world F) (e : exn) :
  GravitySimulation.update
    (GravitySimulation.time_step_display (GravitySimulation.self w))
    (Api.set_engine (GravitySimulation.set_paused false) w)
  = (inl e, w2) ->
  exists w',
    Api.step_simulation w = (inl e, w') /\
    GravitySimulation.paused (GravitySimulation.self w') = false /\
    GravitySimulation.heap w' = GravitySimulation.heap w /\
    GravitySimulation.bodies (GravitySimulation.self w')
    = GravitySimulation.bodies (GravitySimulation.self w).
Proof.
  intros Hupd. pose proof (update_raises_in_place _ _ _ _ Hupd) as ->.
  unfold Api.step_simulation. cbv zeta.
  change (GravitySimulation.time_step_display
            (GravitySimulation.self (Api.set_engine (GravitySimulation.set_paused false) w)))
    with (GravitySimulation.time_step_display (GravitySimulation.self w)).
  rewrite Hupd. eexists. split; [reflexivity |]. repeat split.
Qed.

Lemma fresh_not_listed (l : list GravitySimulation.addr) : Api.fresh l ∉ l.
Proof.
  assert (Hmax : forall a, a ∈ l -> (a <= foldr Nat.max 0%nat l)%nat).
  { induction l as [| a0 l IH]; intros a Ha.
    - apply elem_of_nil in Ha. contradiction.
    - cbn [foldr]. apply elem_of_cons in Ha as [-> | Ha]; [lia |].
      specialize (IH a Ha). lia. }
  intros Hin. apply Hmax in Hin. unfold Api.fresh in Hin. lia.
Qed.

Lemma id_taken_spec (w : GravitySimulation.world F) (l : list GravitySimulation.addr)
    (i : string) :
  Api.id_taken w l i = true
  <-> exists a, a ∈ l /\ CelestialBody.id (GravitySimulation.heap w a) = i.
Proof.
  induction l as [| a0 l IH]; cbn [Api.id_taken].
  - split; [discriminate |]. intros (a & Ha & _). apply elem_of_nil in Ha. contradiction.
  - destruct (String.eqb_spec (CelestialBody.id (GravitySimulation.heap w a0)) i)
      as [Heq | Hne].
    + split; [| reflexivity]. intros _. exists a0.
      split; [apply elem_of_cons; left; reflexivity | exact Heq].
    + rewrite IH. split.
      * intros (a & Ha & Hid). exists a. split; [apply elem_of_cons; right; exact Ha | exact Hid].
      * intros (a & Ha & Hid). apply elem_of_cons in Ha as [-> | Ha]; [contradiction |].
        exists a. split; assumption.
Qed.

(** X19. What [add_simulation_body] answers.  If a listed body has the
    id of the request the answer is 409; otherwise, if [mass <= 0] or
    [radius <= 0], it is 422; in both cases nothing has changed.
    Otherwise a new object carrying the values of the request, with an
    empty trail, is appended to the list, every other object is untouched,
    and the response repeats the request. *)
Theorem add_simulation_body_outcome
    (req : Api.AddBodyRequest (F := F)) (w : GravitySimulation.world F) :
  let listed := GravitySimulation.bodies (GravitySimulation.self w) in
  let taken := exists a, a ∈ listed /\
                 CelestialBody.id (GravitySimulation.heap w a) = Api.req_id req in
  let invalid := nleb (Api.req_mass req) num0 = true \/ nleb (Api.req_radius req) num0 = true in
  (taken ->
     exists detail,
       Api.add_simulation_body req w = (inl (Api.HTTPException 409 detail), w)) /\
  (~ taken -> invalid ->
     exists detail,
       Api.add_simulation_body req w = (inl (Api.HTTPException 422 detail), w)) /\
  (~ taken -> ~ invalid ->
     exists a w',
       Api.add_simulation_body req w
       = (inr (Api.BodyResponse (Api.req_id req) (Api.req_mass req) (Api.req_position req)
                 (Api.req_velocity req) (Api.req_radius req) (Api.req_color req) []),
          w') /\
       (a ∉ listed) /\
       GravitySimulation.bodies (GravitySimulation.self w') = listed ++ [a] /\
       GravitySimulation.heap w' a
       = CelestialBody.mk (Api.req_id req) (Api.req_mass req) (Api.req_position req)
           (Api.req_velocity req) (Api.req_radius req) (Api.req_color req) [] 50 /\
       (forall a', a' <> a -> GravitySimulation.heap w' a' = GravitySimulation.heap w a') /\
       Api.status_of w'
       = Api.StatusResponse (GravitySimulation.paused (GravitySimulation.self w))
           (GravitySimulation.gravitational_constant (GravitySimulation.self w))
           (GravitySimulation.time_step_display (GravitySimulation.self w))
           (S (length listed))).
Proof.
  cbv zeta. unfold Api.add_simulation_body, CelestialBody.init.
  destruct (Api.id_taken w _ _) eqn:Htaken.
  - apply id_taken_spec in Htaken.
    split; [intros _; eexists; reflexivity |].
    split; intros Hfree; contradiction.
  - assert (Hfree : ~ (exists a, a ∈ GravitySimulation.bodies (GravitySimulation.self w) /\
                         CelestialBody.id (GravitySimulation.heap w a) = Api.req_id req)).
    { intros Hex. apply id_taken_spec in Hex. congruence. }
    split; [intros Hex; contradiction |].
    destruct (nleb (Api.req_mass req) num0) eqn:Hm;
      [| destruct (nleb (Api.req_radius req) num0) eqn:Hr].
    + split; [intros _ _; eexists; reflexivity |].
      intros _ Hvalid. exfalso. apply Hvalid. left. reflexivity.
    + split; [intros _ _; eexists; reflexivity |].
      intros _ Hvalid. exfalso. apply Hvalid. right. reflexivity.
    + split; [intros _ [Hc | Hc]; discriminate Hc |].
      intros _ _.
      destruct (Api.req_position req) as [px py] eqn:Hpos.
      destruct (Api.req_velocity req) as [vx vy] eqn:Hvel.
      exists (Api.fresh (GravitySimulation.bodies (GravitySimulation.self w))).
      eexists. cbn [ret].
      cbn [Vector2D.x Vector2D.y Api.body_response CelestialBody.id CelestialBody.mass
           CelestialBody.position CelestialBody.velocity CelestialBody.radius
           CelestialBody.color CelestialBody.trail].
      split; [reflexivity |].
      split; [apply fresh_not_listed |].
      split; [reflexivity |].
      split; [cbn; destruct (decide _); [reflexivity | contradiction] |].
      split.
      * intros a' Hne. cbn. destruct (decide _); [contradiction | reflexivity].
      * unfold Api.status_of. cbn. rewrite length_app. cbn.
        f_equal. lia.
Qed.

(** X20. The API keeps ids unique.  If the listed bodies have pairwise
    different ids, they still have after [add_simulation_body], whatever
    the request and whatever the answer. *)
Theorem add_simulation_body_keeps_ids_unique
    (req : Api.AddBodyRequest (F := F)) (w : GravitySimulation.world F) :
  NoDup (map (fun a => CelestialBody.id (GravitySimulation.heap w a))
             (GravitySimulation.bodies (GravitySimulation.self w))) ->
  let w' := snd (Api.add_simulation_body req w) in
  NoDup (map (fun a => CelestialBody.id (GravitySimulation.heap w' a))
             (GravitySimulation.bodies (GravitySimulation.self w'))).
Proof.
  intros Hnd. cbv zeta. unfold Api.add_simulation_body.
  destruct (Api.id_taken w _ _) eqn:Htaken; [exact Hnd |].
  destruct (CelestialBody.init _ _ _ _ _ _) as [e | new_body] eqn:Hinit.
  - destruct e; exact Hnd.
  - cbn [snd GravitySimulation.add_body GravitySimulation.write GravitySimulation.self
         GravitySimulation.bodies GravitySimulation.set_bodies GravitySimulation.set_body
         GravitySimulation.heap].
    set (l := GravitySimulation.bodies (GravitySimulation.self w)) in *.
    pose proof (fresh_not_listed l) as Hfresh.
    rewrite map_app. cbn [map].
    destruct (decide (Api.fresh l = Api.fresh l)) as [_ | Hc]; [| contradiction].
    assert (Hold : map (fun a => CelestialBody.id
                                   (if decide (a = Api.fresh l) then new_body
                                    else GravitySimulation.heap w a)) l
                   = map (fun a => CelestialBody.id (GravitySimulation.heap w a)) l).
    { apply map_ext_in. intros a Ha. apply list_elem_of_In in Ha.
      destruct (decide (a = Api.fresh l)) as [-> | _]; [contradiction | reflexivity]. }
    rewrite Hold.
    assert (Hid : CelestialBody.id new_body = Api.req_id req).
    { unfold CelestialBody.init in Hinit.
      destruct (nleb _ _); [discriminate Hinit |].
      destruct (nleb _ _); [discriminate Hinit |].
      inversion Hinit. reflexivity. }
    apply NoDup_app. split; [exact Hnd |]. split.
    + intros i Hi Hnew. apply list_elem_of_singleton in Hnew. subst i.
      apply list_elem_of_fmap in Hi as (a & Hida & Ha).
      assert (Htrue : Api.id_taken w l (Api.req_id req) = true).
      { apply id_taken_spec. exists a. split; [exact Ha | congruence]. }
      congruence.
    + apply NoDup_singleton.
Qed.

End ApiFacts.

(** * The keyboard, in exact arithmetic *)

Section KeyFacts.
Import RealNum.
Import Keys.
Local Open Scope R_scope.

Lemma pymax_ge_first (a b : R) : a <= InputHandler.pymax a b.
Proof.
  unfold InputHandler.pymax. cbn [ngtb real_keys]. unfold Rgtb.
  destruct (Rgt_dec b a); lra.
Qed.

Lemma handle_input_range (svc : InputHandler.service (F := R)) (ev : InputHandler.event) :
  0 <= GravitySimulation.gravitational_constant (InputHandler.simulation svc) ->
  1 / 1000 <= InputHandler.time_step svc ->
  0 <= GravitySimulation.gravitational_constant
         (InputHandler.simulation (InputHandler.handle_input svc ev)) /\
  1 / 1000 <= InputHandler.time_step (InputHandler.handle_input svc ev) /\
  GravitySimulation.bodies (InputHandler.simulation (InputHandler.handle_input svc ev))
  = GravitySimulation.bodies (InputHandler.simulation svc) /\
  GravitySimulation.epsilon (InputHandler.simulation (InputHandler.handle_input svc ev))
  = GravitySimulation.epsilon (InputHandler.simulation svc).
Proof.
  intros HG Hts.
  destruct ev as [[| | | | |] |]; cbn; repeat split; try assumption; try lra.
  - apply (pymax_ge_first 0).
  - apply (pymax_ge_first (1 / 1000)).
Qed.

(** X21. The keyboard cannot drive the parameters out of range.  Starting
    from a gravitational constant that is not negative and a step of at
    least 0.001, after any sequence of key presses and other events the
    constant is still not negative and the step still at least 0.001; the
    handler never touches the list of bodies or the softening. *)
Theorem keys_keep_parameters_in_range
    (svc : InputHandler.service (F := R)) (events : list InputHandler.event) :
  0 <= GravitySimulation.gravitational_constant (InputHandler.simulation svc) ->
  1 / 1000 <= InputHandler.time_step svc ->
  let svc' := fold_left InputHandler.handle_input events svc in
  0 <= GravitySimulation.gravitational_constant (InputHandler.simulation svc') /\
  1 / 1000 <= InputHandler.time_step svc' /\
  GravitySimulation.bodies (InputHandler.simulation svc')
  = GravitySimulation.bodies (InputHandler.simulation svc) /\
  GravitySimulation.epsilon (InputHandler.simulation svc')
  = GravitySimulation.epsilon (InputHandler.simulation svc).
Proof.
  cbv zeta. revert svc.
  induction events as [| ev events IH]; intros svc HG Hts.
  - cbn. repeat split; assumption.
  - cbn [fold_left].
    destruct (handle_input_range svc ev HG Hts) as (HG1 & Hts1 & Hb1 & He1).
    destruct (IH _ HG1 Hts1) as (HG2 & Hts2 & Hb2 & He2).
    repeat split; try assumption; congruence.
Qed.

End KeyFacts.

(** * The colour of a new body *)

Section HexFacts.
Variable int16 : list Z -> Py Z.

(** X22. [hex_to_rgb] reads the short form as the long form with every
    digit doubled: for any three characters, ["#RGB"] and ["#RRGGBB"] give
    the same result, value or exception, whatever [int] makes of the
    digits; and a leading ['#'] more or less changes nothing. *)
Theorem hex_short_form_doubles_digits (r g b : Z) (s : list Z) :
  Frontend.hex_to_rgb int16 [35; r; g; b]
  = Frontend.hex_to_rgb int16 [35; r; r; g; g; b; b] /\
  Frontend.hex_to_rgb int16 (35 :: s) = Frontend.hex_to_rgb int16 s.
Proof.
  split; [| reflexivity].
  unfold Frontend.hex_to_rgb. cbn [Frontend.lstrip_hash Z.eqb Pos.eqb].
  destruct (Z.eqb r 35); destruct (Z.eqb g 35); destruct (Z.eqb b 35);
    reflexivity.
Qed.

End HexFacts.

(** * The manager, a reset and the stepper *)

Section ManagerFacts.
Import FloatNum.

(** An object the engine does not list is not touched by a step. *)
Lemma update_untouched {F : Type} `{PyNum F} (w : GravitySimulation.world F) (dt : F)
    (a : GravitySimulation.addr) :
  a ∉ GravitySimulation.bodies (GravitySimulation.self w) ->
  GravitySimulation.heap (snd (GravitySimulation.update dt w)) a
  = GravitySimulation.heap w a.
Proof.
  intros Hnot.
  destruct (GravitySimulation.paused (GravitySimulation.self w)) eqn:Hp.
  - unfold GravitySimulation.update. rewrite Hp. reflexivity.
  - rewrite (update_unfold w dt Hp).
    pose proof (calculate_net_forces_frame w) as Hframe. cbv zeta in Hframe.
    destruct (GravitySimulation.calculate_net_forces w) as [[e | forces] w1];
      cbn [snd] in *; destruct Hframe as (Hheap & _); [rewrite Hheap; reflexivity |].
    unfold Describe.update_positions, Describe.apply_forces.
    rewrite !sweep_untouched by exact Hnot. rewrite Hheap. reflexivity.
Qed.

(** A constructor call of the manager: when the constructor returns, a new
    object holds the body; nothing else changes. *)
Lemma new_body_spec (m : PrimFloat.float) (p v : Vector2D.t PrimFloat.float)
    (r : PrimFloat.float) (c : Z * Z * Z) (i : string) (b : CelestialBody.t PrimFloat.float)
    (a : SimulationManager.app) :
  CelestialBody.init m p v r c i = inr b ->
  exists a',
    SimulationManager.new_body m p v r c i a = (inr (SimulationManager.next_object a), a') /\
    SimulationManager.simulation a' = SimulationManager.simulation a /\
    SimulationManager.next_engine a' = SimulationManager.next_engine a /\
    SimulationManager.next_object a' = S (SimulationManager.next_object a) /\
    SimulationManager.engines a' = SimulationManager.engines a /\
    SimulationManager.objects a' (SimulationManager.next_object a) = b /\
    (forall o, o <> SimulationManager.next_object a ->
       SimulationManager.objects a' o = SimulationManager.objects a o).
Proof.
  intros Hinit. unfold SimulationManager.new_body. rewrite Hinit.
  eexists. split; [reflexivity |].
  cbn [SimulationManager.simulation SimulationManager.next_engine
       SimulationManager.next_object SimulationManager.engines SimulationManager.objects].
  repeat split.
  - destruct (decide _) as [_ | Hc]; [reflexivity | contradiction].
  - intros o Ho. destruct (decide _) as [Hc | _]; [contradiction | reflexivity].
Qed.

Lemma add_to_current_spec (x : GravitySimulation.addr) (a : SimulationManager.app) :
  let a' := SimulationManager.add_to_current x a in
  SimulationManager.simulation a' = SimulationManager.simulation a /\
  SimulationManager.next_engine a' = SimulationManager.next_engine a /\
  SimulationManager.next_object a' = SimulationManager.next_object a /\
  SimulationManager.objects a' = SimulationManager.objects a /\
  SimulationManager.engines a' (SimulationManager.simulation a)
  = GravitySimulation.set_bodies
      (GravitySimulation.bodies (SimulationManager.engines a (SimulationManager.simulation a))
       ++ [x])
      (SimulationManager.engines a (SimulationManager.simulation a)) /\
  (forall e', e' <> SimulationManager.simulation a ->
     SimulationManager.engines a' e' = SimulationManager.engines a e').
Proof.
  cbv zeta. unfold SimulationManager.add_to_current, SimulationManager.set_engine_at.
  cbn [SimulationManager.simulation SimulationManager.next_engine
       SimulationManager.next_object SimulationManager.engines SimulationManager.objects].
  repeat split.
  - destruct (decide _) as [_ | Hc]; [reflexivity | contradiction].
  - intros e' He. destruct (decide _) as [Hc | _]; [contradiction | reflexivity].
Qed.

(** What the default bodies make of the stores. *)
Lemma initialize_default_bodies_result (a : SimulationManager.app) :
  let n := SimulationManager.next_object a in
  let e := SimulationManager.simulation a in
  exists a',
    SimulationManager._initialize_default_bodies a = (inr tt, a') /\
    SimulationManager.simulation a' = e /\
    SimulationManager.next_engine a' = SimulationManager.next_engine a /\
    SimulationManager.next_object a' = S (S (S n)) /\
    SimulationManager.engines a' e
    = GravitySimulation.set_bodies [n; S n; S (S n)] (SimulationManager.engines a e) /\
    (forall e', e' <> e -> SimulationManager.engines a' e' = SimulationManager.engines a e') /\
    (forall o, (o < n)%nat -> SimulationManager.objects a' o = SimulationManager.objects a o) /\
    map (fun o => CelestialBody.id (SimulationManager.objects a' o)) [n; S n; S (S n)]
    = ["sun"; "earth"; "moon"]%string.
Proof.
  cbv zeta. unfold SimulationManager._initialize_default_bodies. cbv zeta.
  set (a0 := SimulationManager.set_engine_at (SimulationManager.simulation a)
               (GravitySimulation.set_bodies []
                  (SimulationManager.engines a (SimulationManager.simulation a))) a).
  assert (H0 : SimulationManager.simulation a0 = SimulationManager.simulation a
               /\ SimulationManager.next_engine a0 = SimulationManager.next_engine a
               /\ SimulationManager.next_object a0 = SimulationManager.next_object a
               /\ SimulationManager.objects a0 = SimulationManager.objects a
               /\ SimulationManager.engines a0 (SimulationManager.simulation a)
                  = GravitySimulation.set_bodies []
                      (SimulationManager.engines a (SimulationManager.simulation a))
               /\ (forall e', e' <> SimulationManager.simulation a ->
                     SimulationManager.engines a0 e' = SimulationManager.engines a e')).
  { subst a0. unfold SimulationManager.set_engine_at.
    cbn [SimulationManager.simulation SimulationManager.next_engine
         SimulationManager.next_object SimulationManager.engines SimulationManager.objects].
    repeat split.
    - destruct (decide _) as [_ | Hc]; [reflexivity | contradiction].
    - intros e' He. destruct (decide _) as [Hc | _]; [contradiction | reflexivity]. }
  clearbody a0. destruct H0 as (Hs0 & Hne0 & Hno0 & Ho0 & He0 & Hoth0).
  match goal with
  | |- context [SimulationManager.new_body ?m ?p ?v ?r ?c ?i a0] =>
      destruct (new_body_spec m p v r c i _ a0 eq_refl)
        as (a1 & Hrun1 & Hs1 & Hne1 & Hno1 & He1 & Hb1 & Ho1);
      rewrite Hrun1
  end.
  match goal with
  | |- context [SimulationManager.new_body ?m ?p ?v ?r ?c ?i a1] =>
      destruct (new_body_spec m p v r c i _ a1 eq_refl)
        as (a2 & Hrun2 & Hs2 & Hne2 & Hno2 & He2 & Hb2 & Ho2);
      rewrite Hrun2
  end.
  match goal with
  | |- context [SimulationManager.new_body ?m ?p ?v ?r ?c ?i a2] =>
      destruct (new_body_spec m p v r c i _ a2 eq_refl)
        as (a3 & Hrun3 & Hs3 & Hne3 & Hno3 & He3 & Hb3 & Ho3);
      rewrite Hrun3
  end.
  set (n := SimulationManager.next_object a) in *.
  set (e := SimulationManager.simulation a) in *.
  assert (Hs3' : SimulationManager.simulation a3 = e) by congruence.
  assert (He3' : SimulationManager.engines a3 = SimulationManager.engines a0) by congruence.
  destruct (add_to_current_spec (SimulationManager.next_object a0) a3)
    as (Hsa & Hnea & Hnoa & Hoa & Hea & Hotha). cbv zeta in *.
  set (c1 := SimulationManager.add_to_current (SimulationManager.next_object a0) a3) in *.
  destruct (add_to_current_spec (SimulationManager.next_object a1) c1)
    as (Hsb & Hneb & Hnob & Hob & Heb & Hothb). cbv zeta in *.
  set (c2 := SimulationManager.add_to_current (SimulationManager.next_object a1) c1) in *.
  destruct (add_to_current_spec (SimulationManager.next_object a2) c2)
    as (Hsc & Hnec & Hnoc & Hoc & Hec & Hothc). cbv zeta in *.
  set (c3 := SimulationManager.add_to_current (SimulationManager.next_object a2) c2) in *.
  exists c3. split; [reflexivity |].
  split; [congruence |]. split; [congruence |]. split; [congruence |].
  assert (Hsim_c2 : SimulationManager.simulation c2 = e) by congruence.
  assert (Hsim_c1 : SimulationManager.simulation c1 = e) by congruence.
  split.
  - rewrite Hsim_c2 in Hec. rewrite Hec.
    rewrite Hsim_c1 in Heb. rewrite Heb.
    rewrite Hs3' in Hea. rewrite Hea.
    rewrite He3', He0. cbn.
    rewrite Hno0, Hno1, Hno0, Hno2, Hno1, Hno0. reflexivity.
  - split.
    + intros e' Hne. rewrite Hothc by congruence. rewrite Hothb by congruence.
      rewrite Hotha by congruence. rewrite He3'. apply Hoth0. exact Hne.
    + assert (Hobj3 : forall o, SimulationManager.objects c3 o = SimulationManager.objects a3 o)
        by (intros o; rewrite Hoc, Hob, Hoa; reflexivity).
      split.
      * intros o Ho. rewrite Hobj3.
        rewrite Ho3 by lia. rewrite Ho2 by lia. rewrite Ho1 by lia.
        rewrite Ho0. reflexivity.
      * cbn [map]. rewrite !Hobj3.
        assert (Hn0 : SimulationManager.next_object a0 = n) by exact Hno0.
        assert (Hn1 : SimulationManager.next_object a1 = S n) by congruence.
        assert (Hn2 : SimulationManager.next_object a2 = S (S n)) by congruence.
        replace (SimulationManager.objects a3 (S (S n)))
          with (SimulationManager.objects a3 (SimulationManager.next_object a2))
          by (rewrite Hn2; reflexivity).
        replace (SimulationManager.objects a3 (S n))
          with (SimulationManager.objects a2 (SimulationManager.next_object a1))
          by (rewrite Hn1; symmetry; apply Ho3; lia).
        replace (SimulationManager.objects a3 n)
          with (SimulationManager.objects a1 (SimulationManager.next_object a0))
          by (rewrite Hn0; symmetry; rewrite Ho3 by lia; apply Ho2; lia).
        rewrite Hb3, Hb2, Hb1. reflexivity.
Qed.

(** What a reset makes of the stores. *)
Lemma reset_result (g ts : option PrimFloat.float) (a : SimulationManager.app) :
  let n := SimulationManager.next_object a in
  let e := SimulationManager.next_engine a in
  exists a',
    SimulationManager.reset_simulation g ts a = (inr e, a') /\
    SimulationManager.simulation a' = e /\
    SimulationManager.engines a' e
    = GravitySimulation.mk (default SimulationManager.DEFAULT_G g) [n; S n; S (S n)]
        SimulationManager.default_epsilon false
        (default SimulationManager.DEFAULT_TIME_STEP ts) ∅ /\
    (forall e', e' <> e -> SimulationManager.engines a' e' = SimulationManager.engines a e') /\
    (forall o, (o < n)%nat -> SimulationManager.objects a' o = SimulationManager.objects a o) /\
    map (fun o => CelestialBody.id (SimulationManager.objects a' o)) [n; S n; S (S n)]
    = ["sun"; "earth"; "moon"]%string.
Proof.
  cbv zeta. unfold SimulationManager.reset_simulation. cbv zeta.
  match goal with
  | |- context [SimulationManager._initialize_default_bodies ?a1] =>
      destruct (initialize_default_bodies_result a1)
        as (a' & Hrun & Hsim & _ & _ & Heng & Hother & Hobj & Hids);
      rewrite Hrun
  end.
  cbn [SimulationManager.simulation SimulationManager.next_object
       SimulationManager.engines SimulationManager.objects] in *.
  exists a'. rewrite Hsim.
  split; [reflexivity |]. split; [reflexivity |].
  split.
  - rewrite Heng. destruct (decide _) as [_ | Hc]; [reflexivity | contradiction].
  - split; [| split; [exact Hobj | exact Hids]].
    intros e' Hne. rewrite (Hother e' Hne).
    destruct (decide (e' = SimulationManager.next_engine a)) as [Hc | _];
      [contradiction | reflexivity].
Qed.

Lemma tick_advances {F : Type} `{PyNum F} (s : Tasks.state (F := F)) :
  Tasks.simulation (snd (Tasks.tick s)) = Stepping.advance (Tasks.simulation s).
Proof.
  unfold Tasks.tick, Stepping.advance.
  destruct (GravitySimulation.paused (GravitySimulation.self (Tasks.simulation s))) eqn:Hp;
    cbn [negb snd Tasks.simulation]; [| reflexivity].
  unfold GravitySimulation.update. rewrite Hp. reflexivity.
Qed.

(** X23. Once the manager's module is loaded, a reset through the API
    always succeeds and shows a new engine:
    running, with the constant and the step of the request (100.0 and 0.01
    for what the request leaves out) and exactly the three default bodies
    "sun", "earth" and "moon"; the engine and the bodies that were there
    before are not changed, they are only no longer the manager's. *)
Theorem start_reset_shows_a_new_engine
    (request_data : option (option PrimFloat.float * option PrimFloat.float))
    (a : SimulationManager.app) :
  let g := match request_data with Some (Some g, _) => g | _ => SimulationManager.DEFAULT_G end in
  let ts := match request_data with
            | Some (_, Some t) => t
            | _ => SimulationManager.DEFAULT_TIME_STEP
            end in
  exists a',
    SimulationManager.start_reset_simulation request_data a
    = (inr (Api.StatusResponse false g ts 3), a') /\
    SimulationManager.get_simulation_instance a' = SimulationManager.next_engine a /\
    map (fun o => CelestialBody.id (SimulationManager.objects a' o))
        (GravitySimulation.bodies
           (SimulationManager.engines a' (SimulationManager.get_simulation_instance a')))
    = ["sun"; "earth"; "moon"]%string /\
    (forall e, (e < SimulationManager.next_engine a)%nat ->
       SimulationManager.engines a' e = SimulationManager.engines a e) /\
    (forall o, (o < SimulationManager.next_object a)%nat ->
       SimulationManager.objects a' o = SimulationManager.objects a o).
Proof.
  cbv zeta. unfold SimulationManager.start_reset_simulation. cbv zeta.
  match goal with
  | |- context [SimulationManager.reset_simulation ?g ?ts a] =>
      destruct (reset_result g ts a) as (a' & Hrun & Hsim & Heng & Hother & Hobj & Hids);
      rewrite Hrun
  end.
  exists a'. unfold SimulationManager.get_simulation_instance. rewrite Hsim.
  split.
  - unfold Api.status_of, SimulationManager.view.
    cbn [GravitySimulation.self]. rewrite Heng. reflexivity.
  - split; [reflexivity |]. split; [rewrite Heng; exact Hids |].
    split; [| exact Hobj].
    intros e He. apply Hother. lia.
Qed.

(** X24. The stepper keeps the engine it fetched.  The coroutine reads
    the manager's engine once, before its loop.  After a reset its ticks
    still go to that engine: however many ticks follow, the engine the
    manager now holds, and so the API shows, and the three bodies of that
    engine are exactly as the reset left them. *)
Theorem stepper_does_not_follow_a_reset
    (g ts : option PrimFloat.float) (a : SimulationManager.app)
    (e : nat) (ticks : nat) :
  (e < SimulationManager.next_engine a)%nat ->
  (forall b, b ∈ GravitySimulation.bodies (SimulationManager.engines a e) ->
             (b < SimulationManager.next_object a)%nat) ->
  exists a1,
    SimulationManager.reset_simulation g ts a
    = (inr (SimulationManager.get_simulation_instance a1), a1) /\
    SimulationManager.get_simulation_instance a1 <> e /\
    let later := Nat.iter ticks (fun x => snd (SimulationManager.tick_of_stepper e x)) a1 in
    SimulationManager.get_simulation_instance later
    = SimulationManager.get_simulation_instance a1 /\
    SimulationManager.engines later (SimulationManager.get_simulation_instance a1)
    = SimulationManager.engines a1 (SimulationManager.get_simulation_instance a1) /\
    forall b,
      b ∈ GravitySimulation.bodies
            (SimulationManager.engines a1 (SimulationManager.get_simulation_instance a1)) ->
      SimulationManager.objects later b = SimulationManager.objects a1 b.
Proof.
  intros He Hold.
  destruct (reset_result g ts a) as (a1 & Hrun & Hsim & Heng & Hother & Hobj & _).
  exists a1. unfold SimulationManager.get_simulation_instance. rewrite Hsim.
  split; [exact Hrun |]. split; [lia |]. cbv zeta.
  set (ne := SimulationManager.next_engine a) in *.
  set (n0 := SimulationManager.next_object a) in *.
  assert (Hinv : forall k,
    let x := Nat.iter k (fun x => snd (SimulationManager.tick_of_stepper e x)) a1 in
    SimulationManager.simulation x = ne /\
    SimulationManager.engines x ne = SimulationManager.engines a1 ne /\
    (forall b, b ∈ GravitySimulation.bodies (SimulationManager.engines x e) -> (b < n0)%nat) /\
    (forall o, (n0 <= o)%nat ->
       SimulationManager.objects x o = SimulationManager.objects a1 o)).
  { induction k as [| k IH]; cbv zeta.
    - cbn [Nat.iter]. split; [exact Hsim |]. split; [reflexivity |].
      split; [| reflexivity].
      intros b Hb. apply Hold. rewrite <- (Hother e) by lia. exact Hb.
    - cbv zeta in IH. rewrite Nat.iter_succ.
      set (x := Nat.iter k (fun x => snd (SimulationManager.tick_of_stepper e x)) a1) in *.
      destruct IH as (Hs & Hne & Hb & Ho).
      unfold SimulationManager.tick_of_stepper. cbn [snd].
      rewrite tick_advances. cbn [Tasks.simulation].
      unfold SimulationManager.write_back.
      cbn [SimulationManager.simulation SimulationManager.engines SimulationManager.objects].
      split; [exact Hs |]. split.
      + destruct (decide (ne = e)) as [Hc | _]; [lia | exact Hne].
      + split.
        * destruct (decide (e = e)) as [_ | Hc]; [| contradiction].
          unfold Stepping.advance. rewrite update_frame_bodies. exact Hb.
        * intros o Hle. unfold Stepping.advance.
          rewrite update_untouched; [apply Ho, Hle |].
          cbn [GravitySimulation.self SimulationManager.view].
          intros Hin. apply Hb in Hin. lia. }
  destruct (Hinv ticks) as (Hs & Hne & _ & Ho). cbv zeta in *.
  split; [exact Hs |]. split; [exact Hne |].
  intros b Hb. apply Ho. rewrite Heng in Hb. cbn [GravitySimulation.bodies] in Hb.
  repeat (apply elem_of_cons in Hb as [-> | Hb]; [lia |]).
  apply elem_of_nil in Hb. contradiction.
Qed.

End ManagerFacts.

(** * The ticks of the stepper *)

Section StepperTicks.

Section AnyNumbers.
Context {F : Type} `{PyNum F}.

(** The first statement of the loop body is the [update] of the engine. *)
Lemma tick_unfold (s : Tasks.state (F := F)) :
  Tasks.tick s
  = (Stepping.tick_result (Tasks.simulation s),
     Tasks.State (Stepping.advance (Tasks.simulation s))
       (Tasks._simulation_task_should_stop s) (Tasks.logger s)).
Proof.
  unfold Tasks.tick, Stepping.tick_result, Stepping.advance.
  destruct (GravitySimulation.paused (GravitySimulation.self (Tasks.simulation s))) eqn:Hp;
    cbn [negb]; [| reflexivity].
  unfold GravitySimulation.update. rewrite Hp. destruct s; reflexivity.
Qed.

(** A tick that raises leaves the engine as it found it. *)
Lemma advance_of_raise (w : GravitySimulation.world F) (e : exn) :
  Stepping.tick_result w = inl e -> Stepping.advance w = w.
Proof.
  unfold Stepping.tick_result, Stepping.advance. intros Hres.
  destruct (GravitySimulation.update _ w) as [r w'] eqn:Hupd. cbn [fst snd] in *.
  subst r. apply (update_raises_in_place _ _ _ _ Hupd).
Qed.

Lemma advance_keeps_epsilon (w : GravitySimulation.world F) :
  GravitySimulation.epsilon (GravitySimulation.self (Stepping.advance w))
  = GravitySimulation.epsilon (GravitySimulation.self w).
Proof.
  unfold Stepping.advance.
  destruct (GravitySimulation.paused (GravitySimulation.self w)) eqn:Hp.
  - unfold GravitySimulation.update. rewrite Hp. reflexivity.
  - rewrite (update_unfold w _ Hp).
    pose proof (calculate_net_forces_frame w) as Hframe. cbv zeta in Hframe.
    destruct (GravitySimulation.calculate_net_forces w) as [[e | forces] w1];
      cbn [snd] in *; destruct Hframe as (_ & _ & _ & He & _); [exact He |].
    unfold Describe.update_positions, Describe.apply_forces.
    rewrite !sweep_self. exact He.
Qed.

(** The loop over sleeps that nothing disturbs, one tick at a time. *)
Lemma while_loop_quiet (n : nat) (s : Tasks.state (F := F)) :
  Tasks._simulation_task_should_stop s = false ->
  Tasks.while_loop (repeat Stepping.quiet_sleep n) s
  = match Stepping.tick_result (Tasks.simulation s) with
    | inl e =>
        Tasks.Raised e
          (Tasks.State (Stepping.advance (Tasks.simulation s)) false (Tasks.logger s))
    | inr _ =>
        match n with
        | O =>
            Tasks.Suspended
              (Tasks.State (Stepping.advance (Tasks.simulation s)) false (Tasks.logger s))
        | S n' =>
            Tasks.while_loop (repeat Stepping.quiet_sleep n')
              (Tasks.State (Stepping.advance (Tasks.simulation s)) false (Tasks.logger s))
        end
    end.
Proof.
  intros Hstop. destruct n as [| n']; cbn [repeat Tasks.while_loop];
    rewrite Hstop, tick_unfold, Hstop;
    destruct (Stepping.tick_result (Tasks.simulation s)); reflexivity.
Qed.

(** X14. One update per sleep, until an update raises.  Left alone for
    [n] sleeps with the stop flag down, the stepper applies
    [update(time_step_display)] once before every sleep: if the first
    [n + 1] updates return it waits at its next sleep with the engine
    updated [n + 1] times and nothing logged; if the update after [m]
    of them raises, the exception ends the coroutine with the engine
    updated [m] times. *)
Theorem loop_updates_once_per_sleep (n : nat) (s : Tasks.state (F := F)) :
  Tasks._simulation_task_should_stop s = false ->
  ((forall k, (k <= n)%nat ->
      Stepping.tick_result (Nat.iter k Stepping.advance (Tasks.simulation s)) = inr tt) ->
   Tasks.while_loop (repeat Stepping.quiet_sleep n) s
   = Tasks.Suspended
       (Tasks.State (Nat.iter (S n) Stepping.advance (Tasks.simulation s))
          false (Tasks.logger s))) /\
  (forall m e,
     (m <= n)%nat ->
     (forall k, (k < m)%nat ->
        Stepping.tick_result (Nat.iter k Stepping.advance (Tasks.simulation s)) = inr tt) ->
     Stepping.tick_result (Nat.iter m Stepping.advance (Tasks.simulation s)) = inl e ->
     Tasks.while_loop (repeat Stepping.quiet_sleep n) s
     = Tasks.Raised e
         (Tasks.State (Nat.iter m Stepping.advance (Tasks.simulation s))
            false (Tasks.logger s))).
Proof.
  revert s. induction n as [| n IH]; intros s Hstop; split.
  - intros Hok. rewrite (while_loop_quiet 0 s Hstop).
    pose proof (Hok 0%nat ltac:(lia)) as H0.
    change (Nat.iter 0 Stepping.advance (Tasks.simulation s))
      with (Tasks.simulation s) in H0.
    rewrite H0. reflexivity.
  - intros m e Hm _ Hraise. assert (m = 0%nat) by lia. subst m.
    change (Nat.iter 0 Stepping.advance (Tasks.simulation s))
      with (Tasks.simulation s) in *.
    rewrite (while_loop_quiet 0 s Hstop), Hraise, (advance_of_raise _ _ Hraise).
    reflexivity.
  - intros Hok. rewrite (while_loop_quiet (S n) s Hstop).
    pose proof (Hok 0%nat ltac:(lia)) as H0.
    change (Nat.iter 0 Stepping.advance (Tasks.simulation s))
      with (Tasks.simulation s) in H0.
    rewrite H0.
    destruct (IH (Tasks.State (Stepping.advance (Tasks.simulation s)) false (Tasks.logger s))
                eq_refl) as [Hsusp _].
    cbn [Tasks.simulation Tasks.logger] in Hsusp.
    rewrite Hsusp.
    + rewrite <- !Nat.iter_succ_r. reflexivity.
    + intros k Hk. rewrite <- Nat.iter_succ_r. apply Hok. lia.
  - intros m e Hm Hbefore Hraise. rewrite (while_loop_quiet (S n) s Hstop).
    destruct m as [| m].
    + change (Nat.iter 0 Stepping.advance (Tasks.simulation s))
        with (Tasks.simulation s) in *.
      rewrite Hraise, (advance_of_raise _ _ Hraise). reflexivity.
    + pose proof (Hbefore 0%nat ltac:(lia)) as H0.
      change (Nat.iter 0 Stepping.advance (Tasks.simulation s))
        with (Tasks.simulation s) in H0.
      rewrite H0.
      destruct (IH (Tasks.State (Stepping.advance (Tasks.simulation s)) false
                      (Tasks.logger s)) eq_refl) as [_ Hdie].
      cbn [Tasks.simulation Tasks.logger] in Hdie.
      rewrite (Hdie m e).
      * rewrite <- !Nat.iter_succ_r. reflexivity.
      * lia.
      * intros k Hk. rewrite <- Nat.iter_succ_r. apply Hbefore. lia.
      * rewrite <- Nat.iter_succ_r. exact Hraise.
Qed.

End AnyNumbers.

Section OnFloats.
Import FloatNum.

(** On floats, with a softening that is not below zero, the update of a
    tick raises nothing but [OverflowError]. *)
Lemma tick_result_float (w : GravitySimulation.world PrimFloat.float) (e : exn) :
  PrimFloat.ltb (GravitySimulation.epsilon (GravitySimulation.self w)) PrimFloat.zero
  = false ->
  Stepping.tick_result w = inl e -> e = OverflowError.
Proof.
  intros Heps. unfold Stepping.tick_result.
  destruct (GravitySimulation.paused (GravitySimulation.self w)) eqn:Hp.
  - unfold GravitySimulation.update. rewrite Hp. discriminate.
  - rewrite (update_unfold w _ Hp).
    destruct (GravitySimulation.calculate_net_forces w) as [[e0 | forces] w1] eqn:Hcalc;
      cbn [fst]; [| discriminate].
    intros Heq. inversion Heq; subst e0.
    apply (calculate_net_forces_float_error w w1 e Hcalc), Heps.
Qed.

(** X13. What can end the stepper.  On binary64 floats, with a softening
    that is not below zero and stays so whatever the other tasks do, and
    sleeps that only return or get cancelled, the only exception that
    leaves the coroutine is the [OverflowError] of an [update]; it leaves
    the engine in the state on which [update] raises it. *)
Theorem loop_dies_only_of_overflow
    (trace : list (Tasks.sleep_event (F := PrimFloat.float)))
    (s : Tasks.state (F := PrimFloat.float)) :
  PrimFloat.ltb
    (GravitySimulation.epsilon (GravitySimulation.self (Tasks.simulation s)))
    PrimFloat.zero = false ->
  Forall (fun ev =>
            match ev with
            | Tasks.Wake others =>
                forall s0,
                  PrimFloat.ltb
                    (GravitySimulation.epsilon (GravitySimulation.self (Tasks.simulation s0)))
                    PrimFloat.zero = false ->
                  PrimFloat.ltb
                    (GravitySimulation.epsilon
                       (GravitySimulation.self (Tasks.simulation (others s0))))
                    PrimFloat.zero = false
            | Tasks.Throw e _ => e = CancelledError
            end) trace ->
  forall e s',
    Tasks.while_loop trace s = Tasks.Raised e s' ->
    e = OverflowError /\
    Stepping.tick_result (Tasks.simulation s') = inl OverflowError.
Proof.
  intros Heps Htrace. revert s Heps.
  assert (Hdie : forall (s : Tasks.state (F := PrimFloat.float)) e0 e s',
            PrimFloat.ltb
              (GravitySimulation.epsilon (GravitySimulation.self (Tasks.simulation s)))
              PrimFloat.zero = false ->
            Stepping.tick_result (Tasks.simulation s) = inl e0 ->
            Tasks.Raised e0
              (Tasks.State (Stepping.advance (Tasks.simulation s))
                 (Tasks._simulation_task_should_stop s) (Tasks.logger s))
            = Tasks.Raised e s' ->
            e = OverflowError /\
            Stepping.tick_result (Tasks.simulation s') = inl OverflowError).
  { intros s e0 e s' Heps Hres Heq. inversion Heq; subst e s'.
    pose proof (tick_result_float _ _ Heps Hres) as He. subst e0.
    split; [reflexivity |]. cbn [Tasks.simulation].
    rewrite (advance_of_raise _ _ Hres). exact Hres. }
  induction Htrace as [| ev trace Hev _ IH]; intros s Heps e s' Hrun.
  - cbn [Tasks.while_loop] in Hrun.
    destruct (Tasks._simulation_task_should_stop s) eqn:Hstop; [discriminate Hrun |].
    rewrite tick_unfold in Hrun.
    destruct (Stepping.tick_result (Tasks.simulation s)) as [e0 | []] eqn:Hres;
      [| discriminate Hrun].
    apply (Hdie s e0 e s' Heps Hres Hrun).
  - cbn [Tasks.while_loop] in Hrun.
    destruct (Tasks._simulation_task_should_stop s) eqn:Hstop; [discriminate Hrun |].
    rewrite tick_unfold in Hrun.
    destruct (Stepping.tick_result (Tasks.simulation s)) as [e0 | []] eqn:Hres.
    + apply (Hdie s e0 e s' Heps Hres Hrun).
    + destruct ev as [others | e1 others].
      * set (s1 := Tasks.State (Stepping.advance (Tasks.simulation s))
                     (Tasks._simulation_task_should_stop s) (Tasks.logger s)) in *.
        assert (H1 : PrimFloat.ltb
                       (GravitySimulation.epsilon
                          (GravitySimulation.self (Tasks.simulation s1)))
                       PrimFloat.zero = false).
        { subst s1. cbn [Tasks.simulation]. rewrite advance_keeps_epsilon. exact Heps. }
        apply (IH (others s1) (Hev s1 H1) e s' Hrun).
      * subst e1. discriminate Hrun.
Qed.

End OnFloats.

End StepperTicks.

(** * The further theorems at concrete inputs *)

Section MoreInstances.
Import FloatNum.
Import PrimFloat.

(** X1 at the engine with two bodies. *)
Lemma net_forces_keys_are_bodies_witness :
  exists forces w',
    GravitySimulation.calculate_net_forces Sample.world0 = (inr forces, w') /\
    (is_Some (forces !! 1%nat) /\ ~ is_Some (forces !! 2%nat)).
Proof.
  destruct (GravitySimulation.calculate_net_forces Sample.world0)
    as [[e | forces] w'] eqn:Hcalc.
  - vm_compute in Hcalc. discriminate Hcalc.
  - exists forces, w'. split; [reflexivity |].
    destruct (net_forces_keys_are_bodies Sample.world0 w' forces Hcalc) as [Hkeys _].
    split.
    + apply Hkeys. cbn. apply elem_of_cons. right. apply elem_of_cons. left. reflexivity.
    + intros Hsome. apply Hkeys in Hsome. cbn in Hsome.
      repeat (apply elem_of_cons in Hsome as [Hc | Hsome]; [discriminate Hc |]).
      apply elem_of_nil in Hsome. exact Hsome.
Defined.

(** X2 at the engine whose far body makes the step overflow. *)
Lemma update_failure_changes_nothing_witness :
  GravitySimulation.update 0.125%float Sample.world_far
  = (inl OverflowError, Sample.world_far) /\
  Sample.world_far = Sample.world_far.
Proof.
  assert (Hraise : GravitySimulation.update 0.125%float Sample.world_far
                   = (inl OverflowError, Sample.world_far)) by reflexivity.
  split; [exact Hraise |].
  exact (update_failure_changes_nothing Sample.world_far Sample.world_far
           0.125%float OverflowError Hraise).
Defined.

(** X4 at the engine that lists the object at 0 twice: it is stepped twice. *)
Lemma update_steps_each_listing_witness :
  GravitySimulation.paused (GravitySimulation.self SampleMore.world_twice) = false /\
  exists forces w1,
    GravitySimulation.calculate_net_forces SampleMore.world_twice = (inr forces, w1) /\
    GravitySimulation.heap (snd (GravitySimulation.update 0.125%float SampleMore.world_twice)) 0%nat
    = CelestialBody.update_position
        (CelestialBody.update_position
           (Describe.force_applied
              (Describe.force_applied Sample.body_a
                 (default Vector2D.zero (forces !! 0%nat)) 0.125%float)
              (default Vector2D.zero (forces !! 0%nat)) 0.125%float)
           0.125%float)
        0.125%float.
Proof.
  split; [reflexivity |].
  destruct (GravitySimulation.calculate_net_forces SampleMore.world_twice)
    as [[e | forces] w1] eqn:Hcalc.
  - vm_compute in Hcalc. discriminate Hcalc.
  - exists forces, w1. split; [reflexivity |].
    exact (update_steps_each_listing SampleMore.world_twice w1 0.125%float forces
             eq_refl Hcalc 0%nat).
Defined.

(** X10 at a body with two entries and a bound of 1, after three calls. *)
Lemma trail_over_bound_keeps_length_witness :
  CelestialBody.max_trail_length SampleMore.body_long_trail
  <= Z.of_nat (length (CelestialBody.trail SampleMore.body_long_trail)) /\
  length (CelestialBody.trail
            (Describe.run_update_position SampleMore.body_long_trail
               [1%float; 1%float; 1%float])) = 2%nat.
Proof.
  assert (Hfull : CelestialBody.max_trail_length SampleMore.body_long_trail
                  <= Z.of_nat (length (CelestialBody.trail SampleMore.body_long_trail)))
    by (cbn; lia).
  split; [exact Hfull |].
  exact (proj1 (trail_over_bound_keeps_length SampleMore.body_long_trail
                  [1%float; 1%float; 1%float] Hfull)).
Defined.

(** X11 at the stepper with two bodies, when another task raises the stop
    flag during the sleep. *)
Lemma loop_stops_without_another_tick_witness :
  Tasks._simulation_task_should_stop SampleMore.stepper_idle = false /\
  Tasks._simulation_task_should_stop
    (SampleMore.ask_stop (snd (Tasks.tick SampleMore.stepper_idle))) = true /\
  forall trace,
    Tasks.while_loop (Tasks.Wake SampleMore.ask_stop :: trace) SampleMore.stepper_idle
    = Tasks.Returned
        (Tasks.log (Tasks.Info "Background simulation update loop has finished.")
           (SampleMore.ask_stop (snd (Tasks.tick SampleMore.stepper_idle)))).
Proof.
  assert (Htick : Tasks.tick SampleMore.stepper_idle
                  = (inr tt, snd (Tasks.tick SampleMore.stepper_idle)))
    by (vm_compute; reflexivity).
  split; [reflexivity |]. split; [reflexivity |].
  intros trace.
  apply (proj1 (loop_stops_without_another_tick SampleMore.stepper_idle
                  (snd (Tasks.tick SampleMore.stepper_idle)) SampleMore.ask_stop trace
                  eq_refl Htick)).
  reflexivity.
Defined.

(** X12 at the same stepper, when the sleep raises a [ValueError]. *)
Lemma sleep_error_is_logged_and_survived_witness :
  Tasks._simulation_task_should_stop SampleMore.stepper_idle = false /\
  forall trace,
    Tasks.while_loop
      (Tasks.Throw (ValueError "sleep") (fun s => s) :: Tasks.Wake SampleMore.ask_stop :: trace)
      SampleMore.stepper_idle
    = Tasks.while_loop trace
        (SampleMore.ask_stop
           (Tasks.log (Tasks.Error "Error in simulation update loop" (ValueError "sleep"))
              (snd (Tasks.tick SampleMore.stepper_idle)))).
Proof.
  assert (Htick : Tasks.tick SampleMore.stepper_idle
                  = (inr tt, snd (Tasks.tick SampleMore.stepper_idle)))
    by (vm_compute; reflexivity).
  split; [reflexivity |].
  intros trace.
  apply (proj1 (sleep_error_is_logged_and_survived SampleMore.stepper_idle
                  (snd (Tasks.tick SampleMore.stepper_idle)) (ValueError "sleep")
                  (fun s => s) SampleMore.ask_stop trace eq_refl Htick
                  ltac:(discriminate))).
Defined.

(** X16 at the module with one running task. *)
Lemma start_after_stop_does_not_restart_witness :
  TaskControl._simulation_task_handle SampleMore.control_running = Some false /\
  TaskControl.created
    (TaskControl.start_simulation_loop_task
       (TaskControl.stop_simulation_loop_task SampleMore.control_running)) = 1%nat.
Proof.
  split; [reflexivity |].
  exact (proj1 (proj2 (start_after_stop_does_not_restart SampleMore.control_running []
                         eq_refl))).
Defined.

(** X17 at the paused engine with two bodies. *)
Lemma step_updates_once_and_restores_pause_witness :
  exists w2,
    GravitySimulation.update
      (GravitySimulation.time_step_display (GravitySimulation.self Sample.world_paused))
      (Api.set_engine (GravitySimulation.set_paused false) Sample.world_paused)
    = (inr tt, w2) /\
    exists w3,
      Api.step_simulation Sample.world_paused = (inr (Api.status_of w3), w3) /\
      GravitySimulation.paused (GravitySimulation.self w3) = true.
Proof.
  destruct (GravitySimulation.update
              (GravitySimulation.time_step_display (GravitySimulation.self Sample.world_paused))
              (Api.set_engine (GravitySimulation.set_paused false) Sample.world_paused))
    as [[e | []] w2] eqn:Hupd.
  - vm_compute in Hupd. discriminate Hupd.
  - exists w2. split; [reflexivity |].
    destruct (step_updates_once_and_restores_pause Sample.world_paused w2 Hupd)
      as (w3 & Hstep & _ & Hpaused & _).
    exists w3. split; [exact Hstep | exact Hpaused].
Defined.

(** X18 at the paused engine with the far body: the step raises and the
    engine is left running. *)
Lemma failed_step_leaves_engine_unpaused_witness :
  GravitySimulation.paused (GravitySimulation.self SampleMore.world_far_paused) = true /\
  exists w',
    Api.step_simulation SampleMore.world_far_paused = (inl OverflowError, w') /\
    GravitySimulation.paused (GravitySimulation.self w') = false.
Proof.
  split; [reflexivity |].
  assert (Hupd : GravitySimulation.update
                   (GravitySimulation.time_step_display
                      (GravitySimulation.self SampleMore.world_far_paused))
                   (Api.set_engine (GravitySimulation.set_paused false)
                      SampleMore.world_far_paused)
                 = (inl OverflowError,
                    Api.set_engine (GravitySimulation.set_paused false)
                      SampleMore.world_far_paused))
    by (vm_compute; reflexivity).
  destruct (failed_step_leaves_engine_unpaused SampleMore.world_far_paused
              (Api.set_engine (GravitySimulation.set_paused false) SampleMore.world_far_paused)
              OverflowError Hupd)
    as (w' & Hstep & Hpaused & _).
  exists w'. split; [exact Hstep | exact Hpaused].
Defined.

(** X20 at the engine with the bodies "a" and "b", for a request that
    takes the id "b" again and one that brings a new id. *)
Lemma add_simulation_body_keeps_ids_unique_witness :
  NoDup (map (fun a => CelestialBody.id (GravitySimulation.heap Sample.world0 a))
             (GravitySimulation.bodies (GravitySimulation.self Sample.world0))) /\
  NoDup (map (fun a =>
                CelestialBody.id
                  (GravitySimulation.heap
                     (snd (Api.add_simulation_body
                             (Api.BodyRequest "c" 1%float Sample.origin Sample.origin
                                1%float (1, 2, 3))
                             Sample.world0)) a))
             (GravitySimulation.bodies
                (GravitySimulation.self
                   (snd (Api.add_simulation_body
                           (Api.BodyRequest "c" 1%float Sample.origin Sample.origin
                              1%float (1, 2, 3))
                           Sample.world0))))).
Proof.
  assert (Hnd : NoDup (map (fun a => CelestialBody.id (GravitySimulation.heap Sample.world0 a))
                           (GravitySimulation.bodies (GravitySimulation.self Sample.world0)))).
  { cbn. apply NoDup_cons. split.
    - intros Hin. apply list_elem_of_singleton in Hin. discriminate Hin.
    - apply NoDup_singleton. }
  split; [exact Hnd |].
  exact (add_simulation_body_keeps_ids_unique
           (Api.BodyRequest "c" 1%float Sample.origin Sample.origin 1%float (1, 2, 3))
           Sample.world0 Hnd).
Defined.

(** X24 at the application as it starts: the stepper holds engine 0, a
    reset makes engine 1, and five ticks later engine 1 is as the reset
    left it. *)
Lemma stepper_does_not_follow_a_reset_witness :
  (0 < SimulationManager.next_engine SampleMore.app_started)%nat /\
  exists a1,
    SimulationManager.reset_simulation None None SampleMore.app_started = (inr 1%nat, a1) /\
    SimulationManager.engines
      (Nat.iter 5 (fun x => snd (SimulationManager.tick_of_stepper 0 x)) a1) 1%nat
    = SimulationManager.engines a1 1%nat.
Proof.
  assert (He : (0 < SimulationManager.next_engine SampleMore.app_started)%nat)
    by (cbn; lia).
  split; [exact He |].
  assert (Hold : forall b,
            b ∈ GravitySimulation.bodies
                  (SimulationManager.engines SampleMore.app_started 0%nat) ->
            (b < SimulationManager.next_object SampleMore.app_started)%nat).
  { cbn. intros b Hb.
    repeat (apply elem_of_cons in Hb as [-> | Hb]; [lia |]).
    apply elem_of_nil in Hb. contradiction. }
  destruct (stepper_does_not_follow_a_reset None None SampleMore.app_started 0%nat 5%nat
              He Hold) as (a1 & Hrun & _ & Hlater).
  cbv zeta in Hlater. destruct Hlater as (_ & Heng & _).
  exists a1.
  assert (Hone : SimulationManager.get_simulation_instance a1 = 1%nat).
  { assert (Hfst : fst (SimulationManager.reset_simulation None None SampleMore.app_started)
                   = inr 1%nat) by reflexivity.
    rewrite Hrun in Hfst. cbn [fst] in Hfst. congruence. }
  rewrite Hone in *. split; [exact Hrun | exact Heng].
Defined.

(** X13 at the engine with the far body: the first tick raises
    [OverflowError], and the engine is left where the next tick would
    raise it again. *)
Lemma loop_dies_only_of_overflow_witness :
  PrimFloat.ltb
    (GravitySimulation.epsilon (GravitySimulation.self (Tasks.simulation Sample.stepper0)))
    0%float = false /\
  exists s',
    Tasks.while_loop [Stepping.quiet_sleep] Sample.stepper0 = Tasks.Raised OverflowError s' /\
    Stepping.tick_result (Tasks.simulation s') = inl OverflowError.
Proof.
  split; [reflexivity |].
  destruct (Tasks.while_loop [Stepping.quiet_sleep] Sample.stepper0)
    as [s1 | e s1 | s1] eqn:Hrun.
  - vm_compute in Hrun. discriminate Hrun.
  - destruct (loop_dies_only_of_overflow [Stepping.quiet_sleep] Sample.stepper0 eq_refl
                ltac:(repeat constructor; intros s0 Hs0; exact Hs0) e s1 Hrun)
      as [-> Hnext].
    exists s1. split; [reflexivity | exact Hnext].
  - vm_compute in Hrun. discriminate Hrun.
Defined.

(** X14 at the stepper on the engine with two bodies, left alone for two
    sleeps: three updates. *)
Lemma loop_updates_once_per_sleep_witness :
  Tasks._simulation_task_should_stop SampleMore.stepper_idle = false /\
  Tasks.while_loop (repeat Stepping.quiet_sleep 2) SampleMore.stepper_idle
  = Tasks.Suspended
      (Tasks.State (Nat.iter 3 Stepping.advance Sample.world0) false []).
Proof.
  split; [reflexivity |].
  apply (proj1 (loop_updates_once_per_sleep 2 SampleMore.stepper_idle eq_refl)).
  intros [| [| [| k]]] Hk; try lia; vm_compute; reflexivity.
Defined.

End MoreInstances.

Section MoreRealInstances.
Import RealNum.
Import Keys.
Local Open Scope R_scope.

(** X21 at a service with G = 100 and a step of 0.01, after eleven presses
    of DOWN and three of LEFT. *)
Lemma keys_keep_parameters_in_range_witness :
  0 <= GravitySimulation.gravitational_constant
         (InputHandler.simulation SampleRealMore.service_real) /\
  1 / 1000 <= InputHandler.time_step SampleRealMore.service_real /\
  0 <= GravitySimulation.gravitational_constant
         (InputHandler.simulation
            (fold_left InputHandler.handle_input
               (repeat (InputHandler.KEYDOWN InputHandler.K_DOWN) 11
                ++ repeat (InputHandler.KEYDOWN InputHandler.K_LEFT) 3)
               SampleRealMore.service_real)).
Proof.
  assert (HG : 0 <= GravitySimulation.gravitational_constant
                      (InputHandler.simulation SampleRealMore.service_real))
    by (cbn; lra).
  assert (Hts : 1 / 1000 <= InputHandler.time_step SampleRealMore.service_real)
    by (cbn; lra).
  split; [exact HG |]. split; [exact Hts |].
  exact (proj1 (keys_keep_parameters_in_range SampleRealMore.service_real _ HG Hts)).
Defined.

End MoreRealInstances.
